(** * HelloFreshRecipes: the recipe-to-document layout engine

    A shallow embedding of [hfrecipes.py] (class [HelloFreshRecipes]) and the
    properties of its portion formatter, name/headline derivation, grid
    layout, ingredient exclusion, image cache and skip logic.

    Conventions of the embedding.
    - A Python [str] is a Rocq [string] holding its UTF-8 encoding.  Substring
      search, [str.replace] and [str.split] on code points and on the UTF-8
      bytes agree (UTF-8 is self-synchronising); iteration and indexing go
      through [utf8_chars].
    - A Python [int] is a [Z].  A Python [float] is the triple (sign, shortest
      round-trip digits, decimal point position) from which CPython prints
      it, or an infinity, or a NaN.
    - Values decoded from JSON are the type [value]; a [dict] keeps its
      insertion order (an association list whose first binding wins).
    - A raised exception is [Raise e]; effects are threaded through a
      [world]: the file system, and the chronological list of the calls made
      to the outside (HTTP requests, document-writer calls, console lines). *)

From Stdlib Require Import ZArith Ascii String DecimalString Lia QArith Qpower.
From stdpp Require Import base gmap strings list.

#[local] Set Warnings "-register-all".
#[local] Open Scope Z_scope.

(* ===================================================================== *)
(** * Python strings *)
(* ===================================================================== *)

(** [sub in s] for two strings. *)
Fixpoint contains (sub s : string) : bool :=
  String.prefix sub s ||
  match s with
  | EmptyString => false
  | String _ s' => contains sub s'
  end.

(** [s.replace(old, new)] for a non-empty [old]: occurrences are replaced
    from left to right and do not overlap.  [skip] counts the characters of
    the occurrence just replaced that are still to be passed over.  (With an
    empty [old] Python inserts [new] around every character; the program
    never replaces an empty pattern.) *)
Fixpoint replace_from (old new : string) (skip : nat) (s : string) : string :=
  match s with
  | EmptyString => EmptyString
  | String c s' =>
      match skip with
      | S k => replace_from old new k s'
      | O =>
          if String.prefix old s
          then new +:+ replace_from old new (Nat.pred (String.length old)) s'
          else String c (replace_from old new 0 s')
      end
  end.

Definition replace (old new s : string) : string :=
  match old with
  | EmptyString => s
  | _ => replace_from old new 0 s
  end.

(** [s.split(sep)] for a non-empty [sep]: the fields between the
    occurrences of [sep], found from left to right without overlap.  The
    result is never empty; its head is the field being read. *)
Fixpoint split_from (sep : string) (skip : nat) (s : string) : list string :=
  match s with
  | EmptyString => [EmptyString]
  | String c s' =>
      match skip with
      | S k => split_from sep k s'
      | O =>
          if String.prefix sep s
          then EmptyString :: split_from sep (Nat.pred (String.length sep)) s'
          else match split_from sep 0 s' with
               | field :: fields => String c field :: fields
               | [] => [String c EmptyString]
               end
      end
  end.

Definition split (sep s : string) : list string := split_from sep 0 s.

(** The characters (code points) of a string, each as a one-character
    string: a byte [10xxxxxx] continues the character before it. *)
Definition is_continuation (c : ascii) : bool :=
  let n := nat_of_ascii c in (Nat.leb 128 n && Nat.ltb n 192)%bool.

Fixpoint utf8_split (s : string) : string * list string :=
  match s with
  | EmptyString => (EmptyString, [])
  | String c s' =>
      let (pending, chars) := utf8_split s' in
      if is_continuation c then (String c pending, chars)
      else (EmptyString, String c pending :: chars)
  end.

Definition utf8_chars (s : string) : list string := snd (utf8_split s).

(** Characters the program names by their code. *)
Definition newline : string := String (ascii_of_nat 10) EmptyString.
Definition double_quote : string := String (ascii_of_nat 34) EmptyString.
Definition single_quote : string := String (ascii_of_nat 39) EmptyString.
(** U+2060 WORD JOINER, in UTF-8. *)
Definition word_joiner : string :=
  String (ascii_of_nat 226) (String (ascii_of_nat 129) (String (ascii_of_nat 160) EmptyString)).

(* ===================================================================== *)
(** * Python numbers *)
(* ===================================================================== *)

(** A float as CPython's [repr] sees it: [Finite neg digits decpt] is
    [(-1)^neg * 0.d1 d2 ... dn * 10^decpt], where [d1 ... dn] are the digits
    of the shortest decimal that reads back as the same double ([0.0] has
    the single digit 0 and [decpt = 1]). *)
Inductive pyfloat :=
| Finite (neg : bool) (digits : list Z) (decpt : Z)
| Inf (neg : bool)
| NaN.

Inductive number :=
| Int (n : Z)
| Float (f : pyfloat).

Definition digit_char (d : Z) : ascii := ascii_of_nat (Z.to_nat (48 + d)).

Fixpoint digits_str (ds : list Z) : string :=
  match ds with
  | [] => EmptyString
  | d :: ds' => String (digit_char d) (digits_str ds')
  end.

Fixpoint zeros (n : nat) : string :=
  match n with
  | O => EmptyString
  | S k => String "0" (zeros k)
  end.

(** [str(n)] for an int. *)
Definition str_int (n : Z) : string := NilZero.string_of_int (Z.to_int n).

(** The exponent of a float in scientific notation: a sign and at least two
    digits. *)
Definition exponent_str (e : Z) : string :=
  (if e <? 0 then "-" else "+") +:+
  (if Z.abs e <? 10 then "0" else EmptyString) +:+ str_int (Z.abs e).

(** [repr(x)] of a finite float from its digits: scientific notation when
    [decpt <= -4] or [decpt > 16], positional notation (with [.0] added to an
    integral value) otherwise. *)
Definition str_finite (ds : list Z) (decpt : Z) : string :=
  let n := Z.of_nat (length ds) in
  if (decpt <=? -4) || (16 <? decpt) then
    match ds with
    | [] => EmptyString
    | d :: rest =>
        String (digit_char d)
          (match rest with [] => EmptyString | _ => "." +:+ digits_str rest end)
        +:+ "e" +:+ exponent_str (decpt - 1)
    end
  else if decpt <=? 0 then
    "0." +:+ zeros (Z.to_nat (- decpt)) +:+ digits_str ds
  else if decpt <? n then
    digits_str (take (Z.to_nat decpt) ds) +:+ "." +:+ digits_str (drop (Z.to_nat decpt) ds)
  else
    digits_str ds +:+ zeros (Z.to_nat (decpt - n)) +:+ ".0".

Definition str_float (f : pyfloat) : string :=
  match f with
  | Finite neg ds decpt => (if neg then "-" else EmptyString) +:+ str_finite ds decpt
  | Inf neg => if neg then "-inf" else "inf"
  | NaN => "nan"
  end.

Definition str_number (n : number) : string :=
  match n with
  | Int z => str_int z
  | Float f => str_float f
  end.

(** The integer the digits spell. *)
Definition digits_value (ds : list Z) : Z :=
  fold_left (fun acc d => 10 * acc + d) ds 0.

(** [x > 1] for a float: [digits_value ds * 10^(decpt - n) > 1]. *)
Definition float_gt_one (f : pyfloat) : bool :=
  match f with
  | Finite neg ds decpt =>
      let e := decpt - Z.of_nat (length ds) in
      negb neg &&
      (if 0 <=? e then 1 <? digits_value ds * 10 ^ e
       else 10 ^ (- e) <? digits_value ds)
  | Inf neg => negb neg
  | NaN => false
  end.

Definition number_gt_one (n : number) : bool :=
  match n with
  | Int z => 1 <? z
  | Float f => float_gt_one f
  end.

(** [x == 0] for a float, as truthiness needs it. *)
Definition float_is_zero (f : pyfloat) : bool :=
  match f with
  | Finite _ ds _ => digits_value ds =? 0
  | _ => false
  end.

(* ===================================================================== *)
(** * Python values, as [json.load] builds them *)
(* ===================================================================== *)

Inductive value :=
| PyNone
| PyBool (b : bool)
| PyNum (n : number)
| PyStr (s : string)
| PyList (l : list value)
| PyDict (d : list (string * value)).

Abbreviation dict := (list (string * value)).

Inductive exn :=
| TypeError
| KeyError
| IndexError
| ValueError
| AttributeError
| IsADirectoryError
| FileExistsError
| ConnectionError
| Exception (status_code : Z).   (* [raise Exception(resp)] *)

(** What a call does: return a value or raise. *)
Inductive outcome (A : Type) :=
| Return (a : A)
| Raise (e : exn).
Arguments Return {A} a.
Arguments Raise {A} e.

Definition bind_outcome {A B} (m : outcome A) (k : A -> outcome B) : outcome B :=
  match m with
  | Return a => k a
  | Raise e => Raise e
  end.

(** [d.get(k)] on a dict. *)
Fixpoint dict_get (d : dict) (k : string) : option value :=
  match d with
  | [] => None
  | (k', v) :: d' => if String.eqb k' k then Some v else dict_get d' k
  end.

(** [d[k] = v]: an existing key keeps its place, a new one goes last. *)
Fixpoint dict_set (d : dict) (k : string) (v : value) : dict :=
  match d with
  | [] => [(k, v)]
  | (k', v') :: d' =>
      if String.eqb k' k then (k', v) :: d' else (k', v') :: dict_set d' k v
  end.

(** [bool(v)]. *)
Definition truthy (v : value) : bool :=
  match v with
  | PyNone => false
  | PyBool b => b
  | PyNum (Int z) => negb (z =? 0)
  | PyNum (Float f) => negb (float_is_zero f)
  | PyStr s => negb (String.eqb s EmptyString)
  | PyList l => match l with [] => false | _ => true end
  | PyDict d => match d with [] => false | _ => true end
  end.

(** [seq[i]] for a Python sequence held as a list: a negative index counts
    from the end. *)
Definition index_list {A} (l : list A) (i : Z) : outcome A :=
  let n := Z.of_nat (length l) in
  let j := if i <? 0 then i + n else i in
  if (0 <=? j) && (j <? n) then
    match l !! Z.to_nat j with
    | Some x => Return x
    | None => Raise IndexError
    end
  else Raise IndexError.

(** [v[i]] with an int [i]. A dict decoded from JSON has string keys only,
    so an int key is never found. *)
Definition subscript_int (v : value) (i : Z) : outcome value :=
  match v with
  | PyList l => index_list l i
  | PyStr s => bind_outcome (index_list (utf8_chars s) i) (fun c => Return (PyStr c))
  | PyDict _ => Raise KeyError
  | _ => Raise TypeError
  end.

(** [v[k]] with a str [k]. *)
Definition subscript_str (v : value) (k : string) : outcome value :=
  match v with
  | PyDict d =>
      match dict_get d k with
      | Some x => Return x
      | None => Raise KeyError
      end
  | _ => Raise TypeError
  end.

(** The items a [for] loop over [v] visits. *)
Definition iterate (v : value) : outcome (list value) :=
  match v with
  | PyList l => Return l
  | PyStr s => Return (PyStr <$> utf8_chars s)
  | PyDict d => Return ((fun kv => PyStr (fst kv)) <$> d)
  | _ => Raise TypeError
  end.

(** [enumerate(l)], counting from [i]. *)
Fixpoint enumerate_from {A} (i : Z) (l : list A) : list (Z * A) :=
  match l with
  | [] => []
  | x :: l' => (i, x) :: enumerate_from (i + 1) l'
  end.

Definition enumerate {A} (l : list A) : list (Z * A) := enumerate_from 0 l.

(* ===================================================================== *)
(** * The outside world *)
(* ===================================================================== *)

(** The calls the program makes on an [FPDF] document, in the order made.
    The text of [write] is the Python value handed over: a str as a rule,
    whatever an ingredient is named otherwise. *)
Inductive pdfop :=
| FPDF (orientation unit format : string)
| add_font (family style fname : string) (uni : bool)
| set_font (family : string)
| set_auto_page_break (auto : bool)
| add_page
| set_font_size (size : Z)
| set_xy (x y : Z)
| pdf_write (h : Z) (txt : value)
| pdf_multi_cell (w h : Z) (txt : string)
| image (name : string) (x y : Z) (w h : option Z).

(** A document object is the calls made on it so far. *)
Abbreviation document := (list pdfop).

Inductive content :=
| Bytes (body : string)         (* a downloaded image *)
| Document (pdf : document).    (* what [pdf.output] saves *)

Inductive fsnode :=
| Dir
| File (c : content).

(** What the program does that can be seen from outside. *)
Inductive event :=
| HttpGet (url : string)
| Draw (op : pdfop)
| Print (line : string).

(** The file system is a map from paths to nodes; paths are compared as
    strings, and the parent of a path is not looked at (the program makes
    every directory before it writes into it). *)
Record world := World {
  fs : gmap string fsnode;
  trace : list event
}.

Inductive response :=
| Response (status_code : Z) (body : string)
| NoResponse.                   (* the transport itself failed *)

(** What the program takes from its platform and its network.
    - [path_join] is [os.path.join];
    - [repr_str] is [repr] of a str (its quoting and escaping follow the
      Unicode tables of the interpreter);
    - [cpu_count] is [os.cpu_count()], the number of workers of the pool
      (1 where the platform cannot tell, which is the pool's own default);
    - [server] answers a GET for a URL, possibly depending on everything
      that happened before. *)
Class Env := {
  path_join : string -> string -> string;
  repr_str : string -> string;
  cpu_count : positive;
  server : list event -> string -> response
}.

(** A statement: it runs in a world, returns or raises, and leaves a
    world.  What was done before an exception stays done. *)
Definition M (A : Type) : Type := world -> outcome A * world.

Definition ret {A} (a : A) : M A := fun w => (Return a, w).

Definition raise {A} (e : exn) : M A := fun w => (Raise e, w).

Definition bind {A B} (m : M A) (k : A -> M B) : M B :=
  fun w =>
    match m w with
    | (Return a, w') => k a w'
    | (Raise e, w') => (Raise e, w')
    end.

(** An expression with no effect, evaluated inside a statement. *)
Definition lift {A} (o : outcome A) : M A := fun w => (o, w).

Declare Scope py_scope.
Delimit Scope py_scope with py.
Notation "x <- m ;; k" := (bind m (fun x => k))
  (at level 100, m at next level, right associativity) : py_scope.
Notation "m ;;; k" := (bind m (fun _ => k))
  (at level 100, right associativity) : py_scope.
Notation "x <-! o ;; k" := (bind_outcome o (fun x => k))
  (at level 100, o at next level, right associativity) : py_scope.
#[local] Open Scope py_scope.

(** A [for] loop whose body updates the loop's variables [s]. *)
Fixpoint for_each {A S} (items : list A) (body : A -> S -> M S) (s : S) : M S :=
  match items with
  | [] => ret s
  | x :: rest => s' <- body x s ;; for_each rest body s'
  end.

Definition emit (e : event) : M unit :=
  fun w => (Return tt, World (fs w) (trace w ++ [e])).

Definition print (line : string) : M unit := emit (Print line).

(** A method call on a document: the call is made, and the document has
    it.  The library's own failures are not modelled (a font file that is
    not there, image bytes it cannot decode, a text that is no str): what is
    stated of a document is stated of the runs in which its calls returned,
    or is about what a run leaves untouched whatever its outcome. *)
Definition call (pdf : document) (op : pdfop) : M document :=
  emit (Draw op) ;;; ret (pdf ++ [op]).

Definition isfile (path : string) : M bool :=
  fun w => (Return (match fs w !! path with Some (File _) => true | _ => false end), w).

Definition exists_ (path : string) : M bool :=
  fun w => (Return (match fs w !! path with Some _ => true | None => false end), w).

(** [os.makedirs(directory, exist_ok=True)]. *)
Definition makedirs (directory : string) : M unit :=
  fun w =>
    match fs w !! directory with
    | Some Dir => (Return tt, w)
    | Some (File _) => (Raise FileExistsError, w)
    | None => (Return tt, World (<[directory := Dir]> (fs w)) (trace w))
    end.

(** [open(path, 'wb')] and the writes that follow, or [pdf.output(path)].
    The directory of the path is taken to be there: [__init__] makes
    [RECIPE_DIR] and [TEMP_DIR] and line 163 the author's directory, but a
    file name that itself holds a separator names a directory nobody made,
    where the real call raises [FileNotFoundError].  That failure is not
    modelled: what is stated of a write is stated of the runs in which it
    returned, or is about what a run leaves untouched whatever its
    outcome. *)
Definition write_file (path : string) (c : content) : M unit :=
  fun w =>
    match fs w !! path with
    | Some Dir => (Raise IsADirectoryError, w)
    | _ => (Return tt, World (<[path := File c]> (fs w)) (trace w))
    end.

(** [self.s.get(url, stream=True)]. *)
Definition http_get `{Env} (url : string) : M response :=
  fun w =>
    let w' := World (fs w) (trace w ++ [HttpGet url]) in
    match server (trace w) url with
    | NoResponse => (Raise ConnectionError, w')
    | r => (Return r, w')
    end.

(* ===================================================================== *)
(** * The program *)
(* ===================================================================== *)

Definition IMAGE_URL (ext height : string) : string :=
  "https://res.cloudinary.com/hellofresh/image/upload/f_" +:+ ext +:+
  ",q_auto,h_" +:+ height +:+ "/v1/hellofresh_s3".

(** Don't include these in the ingredient list. *)
Definition COMMON_INGREDIENTS : list string := ["Salt"; "Pepper"; "Sugar"; "Butter"].

(** The attributes the program reads or sets on a recipe.  None of them
    is a method of [dict] or one of its descriptors ([__dict__],
    [__class__], ...), so each is looked up through [__getattr__] and set as
    an entry. *)
Definition recipe_attributes : list string :=
  ["steps"; "ingredients"; "name"; "headline"; "author"; "nutrition"; "slug";
   "imagePath"; "yields"].

(** [class AttrDict(dict)], for the names of [recipe_attributes]: [d.name]
    is the entry, [None] when there is none; [d.name = v] sets the entry. *)
Definition getattr (d : dict) (name : string) : value :=
  default PyNone (dict_get d name).

Definition setattr (d : dict) (name : string) (v : value) : dict :=
  dict_set d name v.

(** [x == y] for a value and a str. *)
Definition eq_str (v : value) (s : string) : bool :=
  match v with
  | PyStr s' => String.eqb s' s
  | _ => false
  end.

(** [v in l] for a list of strs [l]. *)
Definition in_strs (v : value) (l : list string) : bool :=
  existsb (eq_str v) l.

(** [s in v] for a str [s]: a substring of a str, an element of a list, a
    key of a dict. *)
Definition str_in (s : string) (v : value) : outcome bool :=
  match v with
  | PyStr s' => Return (contains s s')
  | PyList l => Return (existsb (fun x => eq_str x s) l)
  | PyDict d => Return (existsb (fun kv => String.eqb (fst kv) s) d)
  | _ => Raise TypeError
  end.

(** [v > 1]. *)
Definition gt_one (v : value) : outcome bool :=
  match v with
  | PyBool _ => Return false
  | PyNum n => Return (number_gt_one n)
  | _ => Raise TypeError
  end.

Section Program.
Context `{Env}.

(** [repr(v)] and [str(v)]; an f-string formats a value with [str]. *)
Fixpoint repr (v : value) : string :=
  match v with
  | PyNone => "None"
  | PyBool b => if b then "True" else "False"
  | PyNum n => str_number n
  | PyStr s => repr_str s
  | PyList l => "[" +:+ String.concat ", " (map repr l) +:+ "]"
  | PyDict d =>
      "{" +:+ String.concat ", " (map (fun kv => repr_str (fst kv) +:+ ": " +:+ repr (snd kv)) d)
      +:+ "}"
  end.

Definition str (v : value) : string :=
  match v with
  | PyStr s => s
  | _ => repr v
  end.

(** The instance: the directories made by [__init__]. *)
Record HelloFreshRecipes := {
  RECIPE_DIR : string;
  TEMP_DIR : string
}.

Definition get_or_make_dir (base_path : string) (dir_name : value) : M string :=
  match dir_name with
  | PyStr name =>
      let directory := path_join base_path name in
      makedirs directory ;;;
      ret directory
  | _ => raise TypeError          (* [os.path.join] of a non-str *)
  end.

Definition save_image (self : HelloFreshRecipes) (url : value) (name ext : string)
    (height : Z) : M string :=
  let name := name +:+ "." +:+ ext in
  let path := path_join (TEMP_DIR self) name in
  cached <- isfile path ;;
  if cached : bool then
    (* file already exists *)
    ret path
  else
    match url with
    | PyStr url =>
        resp <- http_get (IMAGE_URL ext (str_int height) +:+ url) ;;
        match resp with
        | Response 200 body =>
            write_file path (Bytes body) ;;;
            ret path
        | Response status_code _ => raise (Exception status_code)
        | NoResponse => raise ConnectionError
        end
    | _ => raise TypeError        (* str + non-str *)
    end.

(** Line 111: the amount as text, fractions as glyphs. *)
Definition amount_str (amount : value) : string :=
  replace "0.75" "¾" (replace "0.5" "½" (replace "0.25" "¼" (str amount))).

Definition get_ingredient_details (recipe : dict) (idx : Z) : outcome (value * value) :=
  yields0 <-! subscript_int (getattr recipe "yields") 0 ;;
  amounts <-! subscript_str yields0 "ingredients" ;;
  amount_details <-! subscript_int amounts idx ;;
  amount <-! subscript_str amount_details "amount" ;;
  more <-! match amount with
           | PyNone => Return false
           | _ => gt_one amount
           end ;;
  let pluralise := if more : bool then "s" else EmptyString in
  let amount := amount_str amount in
  units <-! subscript_str amount_details "unit" ;;
  ingredient <-! subscript_int (getattr recipe "ingredients") idx ;;
  name <-! subscript_str ingredient "name" ;;
  match units with
  | PyNone => Return (name, PyStr EmptyString)
  | _ =>
      if eq_str units "unit" then Return (PyStr amount, name)
      else Return (PyStr (amount +:+ " " +:+ str units +:+ pluralise), name)
  end.

Definition write (pdf : document) (size x y : Z) (text : value) : M document :=
  pdf <- call pdf (set_font_size size) ;;
  pdf <- call pdf (set_xy x y) ;;
  pdf <- call pdf (pdf_write 0 text) ;;
  ret pdf.

Definition multi_cell (pdf : document) (size x y width height : Z) (text : string)
    : M document :=
  pdf <- call pdf (set_font_size size) ;;
  pdf <- call pdf (set_xy x y) ;;
  pdf <- call pdf (pdf_multi_cell width height text) ;;
  ret pdf.

Definition prepare_str (string_ : value) (filename : bool) : outcome string :=
  match string_ with
  | PyNone => Return EmptyString
  | PyStr s =>
      let s := replace word_joiner EmptyString (replace newline " " s) in
      if filename then
        (* not allowed in Windows filenames *)
        Return (replace "*" EmptyString (replace double_quote single_quote s))
      else Return s
  | _ => Raise AttributeError
  end.

(** Lines 159-161: the name and the headline from a name with [" with"]. *)
Definition split_name (recipe : dict) : outcome dict :=
  found <-! str_in " with" (getattr recipe "name") ;;
  if found : bool then
    match getattr recipe "name" with
    | PyStr name =>
        match split " with" name with
        | [name; remainder] =>
            let recipe := setattr recipe "name" (PyStr name) in
            Return (setattr recipe "headline" (PyStr ("With" +:+ remainder)))
        | _ => Raise ValueError   (* not two values to unpack *)
        end
    | _ => Raise AttributeError   (* a list or dict has no [split] *)
    end
  else Return recipe.

(** Lines 163-164: the directory and the path of the document. *)
Definition output_path (self : HelloFreshRecipes) (recipe : dict) : M string :=
  dest_dir <- match getattr recipe "author" with
              | PyNone => ret (RECIPE_DIR self)
              | author => get_or_make_dir (RECIPE_DIR self) author
              end ;;
  file_name <- lift (prepare_str (PyStr (str (getattr recipe "name") +:+ ".pdf")) true) ;;
  ret (path_join dest_dir file_name).

(** [math.floor(n / 4)] and [math.ceil(n / 4)] of an int [n]: the quotient
    [n / 4] is exact in a double for every count a list can reach. *)
Definition floor_div4 (n : Z) : Z := n / 4.
Definition ceil_div4 (n : Z) : Z := - ((- n) / 4).

(** Lines 188-199: the body of the loop over the ingredients; the loop's
    variables are [num_ingr] and [pdf]. *)
Definition ingredient_body (self : HelloFreshRecipes) (recipe : dict)
    (item : Z * value) (vars : Z * document) : M (Z * document) :=
  let '(idx, ingr) := item in
  let '(num_ingr, pdf) := vars in
  name <- lift (subscript_str ingr "name") ;;
  if in_strs name COMMON_INGREDIENTS then ret (num_ingr, pdf)    (* continue *)
  else
    image_path <- lift (subscript_str ingr "imagePath") ;;
    pdf <- (if truthy image_path then
              file_name <- lift (prepare_str name true) ;;
              img <- save_image self image_path file_name "png" 200 ;;
              call pdf (image img (10 + 46 * (num_ingr mod 4))
                          (62 + 13 * floor_div4 num_ingr) None (Some 12))
            else ret pdf) ;;
    lines <- lift (get_ingredient_details recipe idx) ;;
    let '(ln_1, ln_2) := lines in
    pdf <- write pdf 9 (22 + 46 * (num_ingr mod 4)) (66 + 13 * floor_div4 num_ingr) ln_1 ;;
    pdf <- write pdf 7 (22 + 46 * (num_ingr mod 4)) (70 + 13 * floor_div4 num_ingr) ln_2 ;;
    ret (num_ingr + 1, pdf).

(** Lines 204-210: the body of the loop over the steps. *)
Definition step_body (self : HelloFreshRecipes) (recipe : dict) (steps_y : Z)
    (item : Z * value) (pdf : document) : M document :=
  let '(idx, step) := item in
  let first_path :=
    (images <-! subscript_str step "images" ;;
     first <-! subscript_int images 0 ;;
     subscript_str first "path") in
  usable <- lift (images <-! subscript_str step "images" ;;
                  if truthy images then
                    path <-! first_path ;; Return (truthy path)
                  else Return false) ;;
  pdf <- (if usable : bool then
            path <- lift first_path ;;
            file_name <- lift (prepare_str
                                 (PyStr (str (getattr recipe "slug") +:+ "-step_" +:+ str_int idx))
                                 true) ;;
            img <- save_image self path file_name "jpg" 400 ;;
            call pdf (image img 10 (steps_y + idx * 26) (Some 36) None)
          else ret pdf) ;;
  instructions <- lift (subscript_str step "instructions") ;;
  text <- lift (prepare_str instructions false) ;;
  multi_cell pdf 10 50 (steps_y + idx * 26) 145 4 text.

(** Lines 168-210: the document of a recipe, from the first call on it to
    the last. *)
Definition compose (self : HelloFreshRecipes) (recipe : dict) : M document :=
  print ("Processing " +:+ str (getattr recipe "name") +:+ "...") ;;;
  pdf <- call [] (FPDF "P" "mm" "A4") ;;
  pdf <- call pdf (add_font "segoe" EmptyString "C:\Windows\Fonts\segoeui.ttf" true) ;;
  pdf <- call pdf (set_font "segoe") ;;
  pdf <- call pdf (set_auto_page_break false) ;;
  pdf <- call pdf add_page ;;
  (* Title, description, other attributes *)
  text <- lift (prepare_str (getattr recipe "name") false) ;;
  pdf <- write pdf 14 10 15 (PyStr text) ;;
  text <- lift (prepare_str (getattr recipe "headline") false) ;;
  pdf <- write pdf 10 10 20 (PyStr text) ;;
  calories <- lift (entry <-! subscript_int (getattr recipe "nutrition") 1 ;;
                    subscript_str entry "amount") ;;
  pdf <- write pdf 10 10 25
           (PyStr ("For 2 people, " +:+ str calories +:+ " cal per serving")) ;;
  description <- lift (match dict_get recipe "description" with
                       | Some v => Return v
                       | None => Raise KeyError
                       end) ;;
  text <- lift (prepare_str description false) ;;
  pdf <- multi_cell pdf 7 10 30 110 4 text ;;
  (* Main illustrative image *)
  file_name <- lift (prepare_str (PyStr (str (getattr recipe "slug") +:+ "-main")) true) ;;
  img <- save_image self (getattr recipe "imagePath") file_name "jpg" 600 ;;
  pdf <- call pdf (image img 125 10 (Some 72) None) ;;
  (* Ingredients *)
  ingredients <- lift (iterate (getattr recipe "ingredients")) ;;
  vars <- for_each (enumerate ingredients) (ingredient_body self recipe) (0, pdf) ;;
  let '(num_ingr, pdf) := vars in
  (* Recipe steps *)
  let steps_y := 67 + 13 * ceil_div4 num_ingr in
  steps <- lift (iterate (getattr recipe "steps")) ;;
  for_each (enumerate steps) (step_body self recipe steps_y) pdf.

Definition process_recipe (self : HelloFreshRecipes) (recipe : dict) : M unit :=
  (* malformed recipes *)
  if negb (truthy (getattr recipe "steps")) || negb (truthy (getattr recipe "ingredients"))
  then ret tt
  else
    recipe <- lift (split_name recipe) ;;
    path <- output_path self recipe ;;
    done <- exists_ path ;;
    if done : bool then ret tt
    else
      pdf <- compose self recipe ;;
      write_file path (Document pdf) ;;;
      print ("Output " +:+ str (getattr recipe "name")).

(** [Pool.map] cuts the recipes into tasks of [chunksize] recipes each:
    [chunksize, extra = divmod(len(iterable), len(pool) * 4)], and one more
    when [extra] is not zero. *)
Definition chunksize (recipes : list dict) : nat :=
  let workers := Pos.to_nat cpu_count in
  let len := length recipes in
  (len / (workers * 4) + (if len mod (workers * 4) =? 0 then 0 else 1))%nat.

(** The tasks: [islice(it, size)] again and again, until it gives nothing.
    [fuel] bounds the number of tasks; the length of [it] is enough. *)
Fixpoint get_tasks {A} (fuel size : nat) (it : list A) : list (list A) :=
  match fuel with
  | O => []
  | S fuel =>
      match take size it with
      | [] => []
      | x => x :: get_tasks fuel size (drop size it)
      end
  end.

(** One task ([mapstar]): its recipes are processed in order by one worker,
    and an exception ends the task. *)
Definition mapstar (self : HelloFreshRecipes) (task : list dict) : M unit :=
  for_each task (fun recipe _ => process_recipe self recipe) tt.

(** Every task is run, whatever became of the ones before; when all are
    done, the first exception that a task raised is raised, if there is
    one.  The tasks are taken here in order, each finished before the next
    is begun: this is how a pool of one worker runs them, and one of the
    ways a larger pool may. *)
Fixpoint run_tasks (self : HelloFreshRecipes) (tasks : list (list dict))
    (failure : option exn) : M unit :=
  match tasks with
  | [] =>
      match failure with
      | Some e => raise e
      | None => ret tt
      end
  | task :: rest =>
      fun w =>
        match mapstar self task w with
        | (Return _, w') => run_tasks self rest failure w'
        | (Raise e, w') => run_tasks self rest (Some (default e failure)) w'
        end
  end.

(** Lines 148-149, [pool.map(self.process_recipe, recipes)] on a pool of
    [os.cpu_count()] workers; [recipes] is the list of records that line 147
    loads from [recipes.json]. *)
Definition process_all_recipes (self : HelloFreshRecipes) (recipes : list dict) : M unit :=
  run_tasks self (get_tasks (length recipes) (chunksize recipes) recipes) None.

End Program.

(* ===================================================================== *)
(** * The layout and the formatter, as specified *)
(* ===================================================================== *)

(** The entry of [yields[0].ingredients] and the name that go with the
    ingredient at [idx]. *)
Definition amount_entry (recipe : dict) (idx : Z) : outcome value :=
  yields0 <-! subscript_int (getattr recipe "yields") 0 ;;
  amounts <-! subscript_str yields0 "ingredients" ;;
  subscript_int amounts idx.

Definition ingredient_name (recipe : dict) (idx : Z) : outcome value :=
  ingredient <-! subscript_int (getattr recipe "ingredients") idx ;;
  subscript_str ingredient "name".

(** An amount as the data model has it: null or a number. *)
Definition is_amount (amount : value) : Prop :=
  amount = PyNone \/ exists n, amount = PyNum n.

(** The magnitude [0.d1 ... dn * 10^decpt] of a finite float, as a
    rational number. *)
Definition magnitude (digits : list Z) (decpt : Z) : Q :=
  (inject_Z (digits_value digits) * inject_Z 10 ^ (decpt - Z.of_nat (length digits)))%Q.

(** A number strictly greater than 1: an int above 1, a positive float
    whose magnitude is above 1, the positive infinity. *)
Definition exceeds_one (n : number) : Prop :=
  match n with
  | Int z => 1 < z
  | Float (Finite neg digits decpt) => neg = false /\ (1 < magnitude digits decpt)%Q
  | Float (Inf neg) => neg = false
  | Float NaN => False
  end.

(** The numeric amount is present and strictly greater than 1. *)
Definition more_than_one (amount : value) : Prop :=
  exists n, amount = PyNum n /\ exceeds_one n.

(** The floats 0.25, 0.5 and 0.75, and one more. *)
Definition quarter : value := PyNum (Float (Finite false [2; 5] 0)).
Definition half : value := PyNum (Float (Finite false [5] 0)).
Definition three_quarters : value := PyNum (Float (Finite false [7; 5] 0)).
Definition ten_and_a_half : value := PyNum (Float (Finite false [1; 0; 5] 2)).

(** An ingredient is left out of the grid when its name is one of
    [COMMON_INGREDIENTS]. *)
Definition excluded (item : Z * value) : bool :=
  match subscript_str (snd item) "name" with
  | Return name => in_strs name COMMON_INGREDIENTS
  | Raise _ => false
  end.

Definition rendered (items : list (Z * value)) : list (Z * value) :=
  filter (fun item => excluded item = false) items.

(** The items of a sequence, each with its position in it, from 0. *)
Definition positions {A} (l : list A) : list (Z * A) :=
  imap (fun i x => (Z.of_nat i, x)) l.

Module Layout.

(** The grid has 4 columns: slot [k] is in column [k mod 4] of row
    [floor (k / 4)]. *)
Definition column (k : Z) : Z := k mod 4.
Definition row (k : Z) : Z := k / 4.

(** The image of slot [k]: height 12, width implied. *)
Definition picture (k : Z) (img : string) : pdfop :=
  image img (10 + 46 * column k) (62 + 13 * row k) None (Some 12).

(** The two lines of slot [k], in sizes 9 and 7. *)
Definition texts (k : Z) (ln_1 ln_2 : value) : document :=
  [set_font_size 9; set_xy (22 + 46 * column k) (66 + 13 * row k); pdf_write 0 ln_1;
   set_font_size 7; set_xy (22 + 46 * column k) (70 + 13 * row k); pdf_write 0 ln_2].

(** [ceil (n / 4)] rows hold [n] ingredients; the steps start below them,
    26 apart. *)
Definition rows (n : Z) : Z := (n + 3) / 4.
Definition step_y (n j : Z) : Z := 67 + 13 * rows n + 26 * j.

(** The image of step [j]: width 36, height implied. *)
Definition step_picture (n j : Z) (img : string) : pdfop :=
  image img 10 (step_y n j) (Some 36) None.

(** The wrapped instructions of step [j]: width 145, line height 4,
    size 10. *)
Definition step_text (n j : Z) (text : string) : document :=
  [set_font_size 10; set_xy 50 (step_y n j); pdf_multi_cell 145 4 text].

End Layout.

Section Blocks.
Context `{Env}.

(** Where the image cache keeps the image of a logical key. *)
Definition cache_path (self : HelloFreshRecipes) (name ext : string) : string :=
  path_join (TEMP_DIR self) (name +:+ "." +:+ ext).

(** What slot [k] of the grid holds for the ingredient [ingr] found at
    index [idx] of the recipe: its image when it has one, and the two lines
    the formatter gives for index [idx]. *)
Definition grid_block (self : HelloFreshRecipes) (recipe : dict) (k : Z)
    (item : Z * value) : outcome document :=
  let '(idx, ingr) := item in
  name <-! subscript_str ingr "name" ;;
  image_path <-! subscript_str ingr "imagePath" ;;
  picture <-! (if truthy image_path then
                 key <-! prepare_str name true ;;
                 Return [Layout.picture k (cache_path self key "png")]
               else Return []) ;;
  lines <-! get_ingredient_details recipe idx ;;
  Return (picture ++ Layout.texts k (fst lines) (snd lines)).

(** The first image of a step, when the step has a usable one. *)
Definition step_image (step : value) : outcome (option value) :=
  images <-! subscript_str step "images" ;;
  if truthy images then
    first <-! subscript_int images 0 ;;
    path <-! subscript_str first "path" ;;
    Return (if truthy path then Some path else None)
  else Return None.

(** What the block of step [j] holds when [n] ingredients are in the
    grid: its image when it has a usable one, and its instructions. *)
Definition step_block (self : HelloFreshRecipes) (recipe : dict) (n : Z)
    (item : Z * value) : outcome document :=
  let '(j, step) := item in
  usable <-! step_image step ;;
  picture <-! match usable with
              | Some _ =>
                  key <-! prepare_str
                            (PyStr (str (getattr recipe "slug") +:+ "-step_" +:+ str_int j))
                            true ;;
                  Return [Layout.step_picture n j (cache_path self key "jpg")]
              | None => Return []
              end ;;
  instructions <-! subscript_str step "instructions" ;;
  text <-! prepare_str instructions false ;;
  Return (picture ++ Layout.step_text n j text).

(** The blocks of a list of items, one after the other, the first in slot
    [k]. *)
Fixpoint blocks_from (block : Z -> Z * value -> outcome document) (k : Z)
    (items : list (Z * value)) : outcome document :=
  match items with
  | [] => Return []
  | item :: rest =>
      first <-! block k item ;;
      others <-! blocks_from block (k + 1) rest ;;
      Return (first ++ others)
  end.

End Blocks.

(* ===================================================================== *)
(** * Relations between the world before and after *)
(* ===================================================================== *)


(** No document was written: every document of [w'] was there in [w]. *)
Definition no_new_document (w w' : world) : Prop :=
  forall p pdf, fs w' !! p = Some (File (Document pdf)) ->
                fs w !! p = Some (File (Document pdf)).

(** Every statement run in [w] ends in a world that [R] relates to [w]. *)
Definition preserves {A} (R : world -> world -> Prop) (m : M A) : Prop :=
  forall w o w', m w = (o, w') -> R w w'.

(** The same for the runs that raise. *)
Definition preserves_on_raise {A} (R : world -> world -> Prop) (m : M A) : Prop :=
  forall w e w', m w = (Raise e, w') -> R w w'.


(* ===================================================================== *)
(** * Sample data *)
(* ===================================================================== *)

Module Sample.

(** A POSIX-like platform. *)
Definition join (a b : string) : string := a +:+ "/" +:+ b.
Definition quote (s : string) : string := "'" +:+ s +:+ "'".

(** A server that has every image, and one that has none. *)
Definition env_ok : Env :=
  {| path_join := join; repr_str := quote; cpu_count := 4;
     server := fun _ _ => Response 200 "image" |}.
Definition env_404 : Env :=
  {| path_join := join; repr_str := quote; cpu_count := 4;
     server := fun _ _ => Response 404 "not found" |}.

Definition self : HelloFreshRecipes := {| RECIPE_DIR := "recipes"; TEMP_DIR := "tmp" |}.

Definition empty_world : world := World ∅ [].

(** The world that [__init__] leaves: its two directories made. *)
Definition made_world : world := World (<["recipes" := Dir]> (<["tmp" := Dir]> ∅)) [].

Definition ingredient (name : string) (image_path : value) : value :=
  PyDict [("name", PyStr name); ("imagePath", image_path)].
Definition amount (amount : value) (unit : value) : value :=
  PyDict [("amount", amount); ("unit", unit)].
Definition step (instructions : string) (images : list value) : value :=
  PyDict [("instructions", PyStr instructions); ("images", PyList images)].

(** One ingredient, one amount entry. *)
Definition one_ingredient (name : string) (entry : value) : dict :=
  [("ingredients", PyList [ingredient name PyNone]);
   ("yields", PyList [PyDict [("ingredients", PyList [entry])]])].

Definition beans : dict := one_ingredient "Beans" (amount ten_and_a_half (PyStr "ounce")).
Definition flour_no_amount : dict := one_ingredient "Flour" (PyDict [("unit", PyStr "cup")]).
Definition flour_no_entry : dict :=
  [("ingredients", PyList [ingredient "Flour" PyNone]); ("yields", PyList [])].
Definition milk : dict := one_ingredient "Milk" (amount (PyNum (Int 2)) (PyStr "cup")).

(** A whole recipe: six ingredients, two of them common, and two steps. *)
Definition chicken : dict :=
  [("name", PyStr "Seared Chicken with Lemon Sauce");
   ("headline", PyStr "A classic");
   ("description", PyStr "Quick and bright.");
   ("slug", PyStr "seared-chicken");
   ("imagePath", PyStr "/main.jpg");
   ("nutrition", PyList [PyDict [("amount", PyNum (Int 2500))];
                         PyDict [("amount", PyNum (Int 610))]]);
   ("ingredients", PyList [ingredient "Chicken" (PyStr "/chicken.png");
                           ingredient "Salt" (PyStr "/salt.png");
                           ingredient "Lemon" PyNone;
                           ingredient "Butter" PyNone;
                           ingredient "salt" PyNone;
                           ingredient "Rice" (PyStr "/rice.png");
                           ingredient "Thyme" PyNone;
                           ingredient "Garlic" PyNone]);
   ("yields", PyList [PyDict [("ingredients", PyList [
                           amount (PyNum (Int 2)) (PyStr "unit");
                           amount PyNone PyNone;
                           amount (PyNum (Int 1)) (PyStr "unit");
                           amount (PyNum (Int 2)) (PyStr "tablespoon");
                           amount quarter (PyStr "teaspoon");
                           amount three_quarters (PyStr "cup");
                           amount half (PyStr "ounce");
                           amount (PyNum (Int 2)) (PyStr "clove")])]]);
   ("steps", PyList [step "Sear the chicken." [PyDict [("path", PyStr "/step1.jpg")]];
                     step "Make the sauce." []])].

(** A name with two [" with"]. *)
Definition twice_with : dict :=
  dict_set chicken "name" (PyStr "Chicken with Rice with Beans").

(** No steps. *)
Definition no_steps : dict := dict_set chicken "steps" (PyList []).

(** The ingredients of [chicken], and three of them with their indices. *)
Definition chicken_ingredients : list value :=
  match getattr chicken "ingredients" with
  | PyList l => l
  | _ => []
  end.
Definition small_salt_item : Z * value := (4, ingredient "salt" PyNone).

(** The document composed for [chicken] where every image is served, and
    the world a batch leaves there. *)
Definition chicken_pdf : document :=
  match fst (@compose env_ok self chicken empty_world) with
  | Return pdf => pdf
  | Raise _ => []
  end.
Definition after_batch : world :=
  snd (@process_all_recipes env_ok self [no_steps; chicken] made_world).

End Sample.

(* ===================================================================== *)
(** * The catalogue client *)
(* ===================================================================== *)

Definition USERNAME : string := "***".
Definition PASSWORD : string := "***".
Definition LOGIN_LINK : string := "https://www.hellofresh.com/gw/login".
Definition API_LINK : string := "https://gw.hellofresh.com/api/recipes/search".

(** The requests of the client: a POST with its form data, a GET with its
    headers and its query parameters.  (What the session adds to every
    request alike, its locale and country and its user agent, is left
    out.) *)
Inductive request :=
| Post (url : string) (data : list (string * string))
| Get (url : string) (headers : list (string * string)) (params : list (string * Z)).

(** An answer: its status code and what [resp.json()] gives (it raises on
    a body that is no JSON); or none. *)
Inductive reply :=
| Reply (status_code : Z) (json : outcome value)
| NoReply.

(** What the client takes from the outside: the catalogue server, which
    may answer by what was asked before, and [json.dumps]. *)
Class Catalog := {
  catalog_server : list request -> request -> reply;
  json_dumps : list value -> string
}.

(** The state the client works on: the files, the requests made, the
    lines printed, and [self.ACCESS_TOKEN]. *)
Record client := Client {
  client_fs : gmap string fsnode;
  requests : list request;
  console : list string;
  ACCESS_TOKEN : value
}.

Section CatalogClient.
Context `{Env} `{Catalog}.

(** [self.s.post] and [self.s.get] of the client. *)
Definition send (r : request) (c : client) : outcome (Z * outcome value) * client :=
  let c' := Client (client_fs c) (requests c ++ [r]) (console c) (ACCESS_TOKEN c) in
  match catalog_server (requests c) r with
  | Reply status_code json => (Return (status_code, json), c')
  | NoReply => (Raise ConnectionError, c')
  end.

Definition say (line : string) (c : client) : client :=
  Client (client_fs c) (requests c) (console c ++ [line]) (ACCESS_TOKEN c).

Definition login (c : client) : outcome value * client :=
  let c := say "Logging in..." c in
  let login_payload := [("username", USERNAME); ("password", PASSWORD)] in
  match send (Post LOGIN_LINK login_payload) c with
  | (Raise e, c) => (Raise e, c)
  | (Return (status_code, json), c) =>
      if negb (status_code =? 200) then (Raise (Exception status_code), c)
      else (body <-! json ;; subscript_str body "access_token", c)
  end.

(** The request for page [i]. *)
Definition page_request (token : value) (i : Z) : request :=
  let data_payload := [("offset", i * 250); ("limit", (i + 1) * 250)] in  (* 250 max items per call *)
  let data_header := [("Authorization", "Bearer " +:+ str token)] in
  Get API_LINK data_header data_payload.

(** Lines 70-84, the [while True] loop from page [i] on, run for at most
    [fuel] pages: [None] when the pages are not at their end by then. *)
Fixpoint collect_pages (fuel : nat) (i : Z) (all_recipes : list value) (c : client)
    : option (outcome (list value) * client) :=
  match fuel with
  | O => None
  | S fuel =>
      match send (page_request (ACCESS_TOKEN c) i) c with
      | (Raise e, c) => Some (Raise e, c)
      | (Return (status_code, json), c) =>
          if negb (status_code =? 200) then Some (Raise (Exception status_code), c)
          else
            match (body <-! json ;;
                   recipes <-! subscript_str body "items" ;;
                   iterate recipes) with
            | Raise e => Some (Raise e, c)
            | Return recipes =>
                let all_recipes := all_recipes ++ recipes in
                if Z.of_nat (length recipes) <? 250 then
                  (* we have reached end of recipes *)
                  Some (Return all_recipes, c)
                else collect_pages fuel (i + 1) all_recipes c
            end
      end
  end.

Definition collect_recipes (fuel : nat) (c : client) : option (outcome unit * client) :=
  match login c with
  | (Raise e, c) => Some (Raise e, c)
  | (Return token, c) =>
      let c := Client (client_fs c) (requests c) (console c) token in
      let c := say "Collecting recipes..." c in
      match collect_pages fuel 0 [] c with
      | None => None
      | Some (Raise e, c) => Some (Raise e, c)
      | Some (Return all_recipes, c) =>
          match client_fs c !! "recipes.json" with
          | Some Dir => Some (Raise IsADirectoryError, c)
          | _ =>
              Some (Return tt,
                    Client (<["recipes.json" := File (Bytes (json_dumps all_recipes))]>
                              (client_fs c))
                      (requests c) (console c) (ACCESS_TOKEN c))
          end
      end
  end.

(** The requests for [n] pages from page [i] on. *)
Fixpoint page_requests (token : value) (i : Z) (n : nat) : list request :=
  match n with
  | O => []
  | S n => page_request token i :: page_requests token (i + 1) n
  end.

(** A server that holds [catalog] and gives at most 250 items per call:
    a search from [offset] is answered with the 250 items from there, or
    with those that are left. *)
Definition serves (catalog : list value) : Prop :=
  forall log headers offset limit,
    0 <= offset ->
    catalog_server log (Get API_LINK headers [("offset", offset); ("limit", limit)])
      = Reply 200
          (Return (PyDict [("items", PyList (take 250 (drop (Z.to_nat offset) catalog)))])).

End CatalogClient.

(* ===================================================================== *)
(** * Notions for the properties of the other functions *)
(* ===================================================================== *)

(** The character [c] stands somewhere in [s]. *)
Fixpoint occurs (c : ascii) (s : string) : bool :=
  match s with
  | EmptyString => false
  | String x s' => Ascii.eqb c x || occurs c s'
  end.

(** [s[n:]]. *)
Fixpoint string_drop (n : nat) (s : string) : string :=
  match n, s with
  | O, _ => s
  | S k, EmptyString => EmptyString
  | S k, String _ s' => string_drop k s'
  end.

(** Every file of [w] is in [w'] with the content it had. *)
Definition files_kept (w w' : world) : Prop :=
  forall p c, fs w !! p = Some (File c) -> fs w' !! p = Some (File c).

(** The trace of [w'] is the trace of [w] followed by events that all
    satisfy [P]. *)
Definition extends_by (P : event -> Prop) (w w' : world) : Prop :=
  exists events, trace w' = trace w ++ events /\ Forall P events.

(** An event that is no request, or a request to the image host. *)
Definition image_host : string := "https://res.cloudinary.com/hellofresh/image/upload/".

Definition local_or_image_request (e : event) : Prop :=
  match e with
  | HttpGet url => String.prefix image_host url = true
  | _ => True
  end.

(** An event that is no request. *)
Definition no_request (e : event) : Prop :=
  match e with
  | HttpGet _ => False
  | _ => True
  end.

(** Nothing happens to the files, and no request is made. *)
Definition quiet (w w' : world) : Prop :=
  fs w' = fs w /\ extends_by no_request w w'.

(** A statement that raises wherever it is run, within [R]. *)
Definition fails_within {A} (R : world -> world -> Prop) (m : M A) : Prop :=
  forall w, exists e w', m w = (Raise e, w') /\ R w w'.

Module More.

(** [Sample.chicken] after the split of its name. *)
Definition chicken_split : dict :=
  setattr (setattr Sample.chicken "name" (PyStr "Seared Chicken")) "headline"
    (PyStr "With Lemon Sauce").

(** The same by an author. *)
Definition by_jamie : dict := dict_set chicken_split "author" (PyStr "Jamie").

(** Another name, so another document; and a recipe with no description. *)
Definition lemon_chicken : dict := dict_set Sample.chicken "name" (PyStr "Lemon Chicken").
Definition no_description : dict :=
  filter (fun kv => fst kv <> "description") Sample.chicken.

(** Two ingredients, one amount entry. *)
Definition two_ingredients_one_amount : dict :=
  [("ingredients", PyList [Sample.ingredient "Milk" PyNone; Sample.ingredient "Flour" PyNone]);
   ("yields", PyList [PyDict [("ingredients",
                               PyList [Sample.amount (PyNum (Int 2)) (PyStr "cup")])]])].

(** A catalogue of 251 empty records, behind a server that gives the token
    ["t0"] and 250 items per call; [5] stands for what [json.dumps] writes. *)
Definition catalog : list value := replicate 251 (PyDict []).
Definition catalog_ok : Catalog :=
  {| catalog_server := fun _ r =>
       match r with
       | Post _ _ => Reply 200 (Return (PyDict [("access_token", PyStr "t0")]))
       | Get _ _ [(_, offset); _] =>
           Reply 200 (Return (PyDict [("items",
                                       PyList (take 250 (drop (Z.to_nat offset) catalog)))]))
       | Get _ _ _ => Reply 400 (Raise ValueError)
       end;
     json_dumps := fun l => str_int (Z.of_nat (length l)) |}.
(** A server that lets nobody in. *)
Definition catalog_403 : Catalog :=
  {| catalog_server := fun _ _ => Reply 403 (Raise ValueError);
     json_dumps := fun l => str_int (Z.of_nat (length l)) |}.
Definition new_client : client := Client ∅ [] [] PyNone.

(** The steps of [Sample.chicken], and the grid and the stack of its
    document: six slots, of which the first and the fourth have an image,
    over two rows, and two steps below them, the first with an image. *)
Definition chicken_steps : list value :=
  match getattr Sample.chicken "steps" with
  | PyList l => l
  | _ => []
  end.
Definition chicken_grid : document :=
  [image "tmp/Chicken.png" 10 62 None (Some 12);
   set_font_size 9; set_xy 22 66; pdf_write 0 (PyStr "2");
   set_font_size 7; set_xy 22 70; pdf_write 0 (PyStr "Chicken");
   set_font_size 9; set_xy 68 66; pdf_write 0 (PyStr "1");
   set_font_size 7; set_xy 68 70; pdf_write 0 (PyStr "Lemon");
   set_font_size 9; set_xy 114 66; pdf_write 0 (PyStr "¼ teaspoon");
   set_font_size 7; set_xy 114 70; pdf_write 0 (PyStr "salt");
   image "tmp/Rice.png" 148 62 None (Some 12);
   set_font_size 9; set_xy 160 66; pdf_write 0 (PyStr "¾ cup");
   set_font_size 7; set_xy 160 70; pdf_write 0 (PyStr "Rice");
   set_font_size 9; set_xy 22 79; pdf_write 0 (PyStr "½ ounce");
   set_font_size 7; set_xy 22 83; pdf_write 0 (PyStr "Thyme");
   set_font_size 9; set_xy 68 79; pdf_write 0 (PyStr "2 cloves");
   set_font_size 7; set_xy 68 83; pdf_write 0 (PyStr "Garlic")].
Definition chicken_stack : document :=
  [image "tmp/seared-chicken-step_0.jpg" 10 93 (Some 36) None;
   set_font_size 10; set_xy 50 93; pdf_multi_cell 145 4 "Sear the chicken.";
   set_font_size 10; set_xy 50 119; pdf_multi_cell 145 4 "Make the sauce."].




(** A batch whose first recipe cannot be named. *)
Definition mixed_batch : outcome unit * world :=
  @process_all_recipes Sample.env_ok Sample.self [Sample.twice_with; lemon_chicken]
    Sample.made_world.

End More.

(* ===================================================================== *)
(** * The string and number primitives on examples *)
(* ===================================================================== *)

Example str_float_positional :
  str_float (Finite false [1; 0; 5] 2) = "10.5" /\
  str_float (Finite false [2; 5] 0) = "0.25" /\
  str_float (Finite false [1] (-3)) = "0.0001" /\
  str_float (Finite false [1] 16) = "1000000000000000.0" /\
  str_float (Finite true [0] 1) = "-0.0".
Proof. repeat split. Qed.

Example str_float_scientific :
  str_float (Finite false [1] (-4)) = "1e-05" /\
  str_float (Finite false [1] 17) = "1e+16" /\
  str_float (Finite false [1; 2; 3; 4; 5] 101) = "1.2345e+100".
Proof. repeat split. Qed.

Example float_gt_one_examples :
  float_gt_one (Finite false [1; 0; 5] 2) = true /\
  float_gt_one (Finite false [1] 1) = false /\
  float_gt_one (Finite false [7; 5] 0) = false /\
  float_gt_one (Finite false [1; 0; 0; 1] 1) = true.
Proof. repeat split. Qed.

Example split_examples :
  split " with" "A with B with C" = ["A"; " B"; " C"] /\
  split " with" "ABC" = ["ABC"] /\
  split " with" "A with" = ["A"; EmptyString] /\
  split "aa" "aaa" = [EmptyString; "a"].
Proof. repeat split. Qed.

Example replace_examples :
  replace "0.5" "½" "10.5" = "1½" /\
  replace "aa" "b" "aaaa a" = "bb a".
Proof. repeat split. Qed.

Example utf8_chars_example : utf8_chars "a½b" = ["a"; "½"; "b"].
Proof. reflexivity. Qed.

(** The tasks of a pool of 4 workers: one recipe each up to 16 recipes, two
    each from 17 on. *)
Example chunksize_examples :
  @chunksize Sample.env_ok (replicate 3 []) = 1%nat /\
  @chunksize Sample.env_ok (replicate 16 []) = 1%nat /\
  @chunksize Sample.env_ok (replicate 17 []) = 2%nat /\
  @chunksize Sample.env_ok [] = 0%nat /\
  get_tasks 5 2 [1; 2; 3; 4; 5] = [[1; 2]; [3; 4]; [5]] /\
  get_tasks 0 0 ([] : list Z) = [].
Proof. repeat split. Qed.

(* ===================================================================== *)
(** * Running statements *)
(* ===================================================================== *)

Lemma bind_Return {A B} (m : M A) (k : A -> M B) w b w' :
  bind m k w = (Return b, w') ->
  exists a w1, m w = (Return a, w1) /\ k a w1 = (Return b, w').
Proof.
  unfold bind. destruct (m w) as [[a|e] w1]; intros Hk; [eauto | discriminate].
Qed.

Lemma bind_Raise {A B} (m : M A) (k : A -> M B) w e w' :
  bind m k w = (Raise e, w') ->
  m w = (Raise e, w') \/ exists a w1, m w = (Return a, w1) /\ k a w1 = (Raise e, w').
Proof.
  unfold bind. destruct (m w) as [[a|e1] w1]; intros Hk; [right; eauto | left; congruence].
Qed.

Lemma bind_run {A B} (m : M A) (k : A -> M B) w a w1 :
  m w = (Return a, w1) -> bind m k w = k a w1.
Proof. unfold bind. now intros ->. Qed.

Lemma lift_Return {A} (o : outcome A) w a w' :
  lift o w = (Return a, w') -> o = Return a /\ w' = w.
Proof. unfold lift. intros [= -> ->]. auto. Qed.

Lemma ret_Return {A} (a b : A) w w' : ret a w = (Return b, w') -> b = a /\ w' = w.
Proof. unfold ret. intros [= -> ->]. auto. Qed.

Lemma bind_outcome_Return {A B} (o : outcome A) (k : A -> outcome B) b :
  bind_outcome o k = Return b -> exists a, o = Return a /\ k a = Return b.
Proof. destruct o; simpl; intros Hk; [eauto | discriminate]. Qed.

(** Splits the hypotheses that say a sequence of statements returned. *)
Ltac run_inv :=
  repeat match goal with
    | H : bind _ _ _ = (Return _, _) |- _ =>
        let a := fresh "a" in let w := fresh "w" in
        let Hm := fresh "Hm" in let Hk := fresh "Hk" in
        apply bind_Return in H as (a & w & Hm & Hk)
    | H : lift _ _ = (Return _, _) |- _ =>
        let Ho := fresh "Ho" in apply lift_Return in H as [Ho ->]
    | H : ret _ _ = (Return _, _) |- _ => apply ret_Return in H as [-> ->]
    | H : bind_outcome _ _ = Return _ |- _ =>
        let a := fresh "a" in let Ho := fresh "Ho" in let Hk := fresh "Hk" in
        apply bind_outcome_Return in H as (a & Ho & Hk)
    | H : raise _ _ = (Return _, _) |- _ => discriminate H
    | H : Raise _ = Return _ |- _ => discriminate H
    | H : Return _ = Return _ |- _ => injection H as H; subst
    end.

(* ===================================================================== *)
(** * The portion formatter *)
(* ===================================================================== *)

Section Formatter.
Context `{Env}.

(** Once the entry and the name are found, the formatter is its branches. *)
Lemma get_ingredient_details_found recipe idx entry amount units name :
  amount_entry recipe idx = Return entry ->
  subscript_str entry "amount" = Return amount ->
  subscript_str entry "unit" = Return units ->
  ingredient_name recipe idx = Return name ->
  get_ingredient_details recipe idx =
    (more <-! match amount with
              | PyNone => Return false
              | _ => gt_one amount
              end ;;
     match units with
     | PyNone => Return (name, PyStr EmptyString)
     | _ =>
         if eq_str units "unit" then Return (PyStr (amount_str amount), name)
         else Return (PyStr (amount_str amount +:+ " " +:+ str units +:+
                             (if more : bool then "s" else EmptyString)), name)
     end).
Proof.
  unfold amount_entry, ingredient_name, get_ingredient_details.
  intros Hentry Hamount Hunits Hname. run_inv.
  repeat match goal with Ho : _ = Return _ |- _ => rewrite Ho; clear Ho; simpl end.
  reflexivity.
Qed.

(** The comparison of a float with 1 on its digits is the comparison of
    its value with 1. *)
Lemma magnitude_gt_one digits decpt :
  let e := decpt - Z.of_nat (length digits) in
  (if 0 <=? e then 1 <? digits_value digits * 10 ^ e
   else 10 ^ (- e) <? digits_value digits) = true
  <-> (1 < magnitude digits decpt)%Q.
Proof.
  intros e. unfold magnitude. fold e. generalize (digits_value digits). intros m.
  destruct (Z.leb_spec 0 e) as [He|He]; rewrite Z.ltb_lt.
  - rewrite <- Zpower_Qpower by done. rewrite <- inject_Z_mult.
    change 1%Q with (inject_Z 1). by rewrite <- Zlt_Qlt.
  - replace e with (- (- e)) at 2 by lia. rewrite Qpower_opp.
    rewrite <- Zpower_Qpower by lia.
    assert (0 < 10 ^ (- e)) as Hpos by (apply Z.pow_pos_nonneg; lia).
    assert (0 < inject_Z (10 ^ (- e)))%Q as HposQ.
    { change 0%Q with (inject_Z 0). by rewrite <- Zlt_Qlt. }
    rewrite (Zlt_Qlt (10 ^ (- e)) m).
    rewrite <- (Qmult_lt_r 1 _ _ HposQ).
    assert (inject_Z m * / inject_Z (10 ^ (- e)) * inject_Z (10 ^ (- e)) == inject_Z m)%Q
      as ->.
    { field. intros H0. rewrite H0 in HposQ. by apply Qlt_irrefl in HposQ. }
    by rewrite Qmult_1_l.
Qed.

Lemma number_gt_one_exceeds n : number_gt_one n = true <-> exceeds_one n.
Proof.
  destruct n as [z|[neg digits decpt|neg|]]; cbn [number_gt_one float_gt_one exceeds_one].
  - apply Z.ltb_lt.
  - rewrite andb_true_iff, negb_true_iff. by rewrite magnitude_gt_one.
  - apply negb_true_iff.
  - split; [discriminate | done].
Qed.

Lemma gt_one_amount amount :
  is_amount amount ->
  exists more : bool,
    match amount with PyNone => Return false | _ => gt_one amount end = Return more /\
    (more = true <-> more_than_one amount).
Proof.
  intros [-> | [n ->]].
  - exists false. split; [done|]. split; [done|]. intros (n & Hn & _). discriminate.
  - exists (number_gt_one n). split; [done|]. rewrite number_gt_one_exceeds. split.
    + intros Hgt. exists n. done.
    + intros (n' & [= <-] & Hgt). done.
Qed.

(** ** C3, as amended.  The portion formatter returns a pair of lines and
    does not raise for every recipe and index such that
    [yields[0]['ingredients'][idx]] exists and has an ['amount'] key (null or
    a number) and a ['unit'] key, and [ingredients[idx]] has a ['name'] key.
    A null amount or unit is handled by the branches; a missing key or a
    missing entry is not. *)
Theorem get_ingredient_details_total recipe idx entry amount units name :
  amount_entry recipe idx = Return entry ->
  subscript_str entry "amount" = Return amount ->
  subscript_str entry "unit" = Return units ->
  ingredient_name recipe idx = Return name ->
  is_amount amount ->
  exists ln_1 ln_2, get_ingredient_details recipe idx = Return (ln_1, ln_2).
Proof.
  intros Hentry Hamount Hunits Hname Hnum.
  rewrite (get_ingredient_details_found _ _ _ _ _ _ Hentry Hamount Hunits Hname).
  destruct (gt_one_amount _ Hnum) as (more & -> & _). simpl.
  destruct units; try destruct (eq_str _ _); eauto.
Qed.


(** ** C1.  The glyphs replace the texts "0.25", "0.5" and "0.75" wherever
    they stand in the amount's string, not the three amounts only: the
    float 10.5, whose string is "10.5", is rendered "1½". *)
Theorem fraction_glyph_inside_larger_amount :
  str ten_and_a_half = "10.5" /\
  amount_str ten_and_a_half = "1½" /\
  get_ingredient_details Sample.beans 0 = Return (PyStr "1½ ounces", PyStr "Beans").
Proof. repeat split. Qed.

(** The three amounts of the table, and an amount the table leaves alone. *)
Lemma amount_str_table :
  amount_str quarter = "¼" /\ amount_str half = "½" /\ amount_str three_quarters = "¾" /\
  amount_str (PyNum (Int 2)) = "2" /\ amount_str (PyNum (Float (Finite false [1; 5] 1))) = "1.5".
Proof. repeat split. Qed.

End Formatter.

Lemma get_ingredient_details_total_witness :
  exists ln_1 ln_2,
    @get_ingredient_details Sample.env_ok Sample.milk 0 = Return (ln_1, ln_2).
Proof.
  apply (@get_ingredient_details_total Sample.env_ok Sample.milk 0
           (Sample.amount (PyNum (Int 2)) (PyStr "cup")) (PyNum (Int 2)) (PyStr "cup")
           (PyStr "Milk")); try reflexivity.
  right. exists (Int 2). reflexivity.
Defined.

(** C3 as stated fails: an entry with no ['amount'] key, or a recipe with no
    entry at all, makes the formatter raise. *)
Lemma get_ingredient_details_raises :
  @get_ingredient_details Sample.env_ok Sample.flour_no_amount 0 = Raise KeyError /\
  @get_ingredient_details Sample.env_ok Sample.flour_no_entry 0 = Raise IndexError.
Proof. split; reflexivity. Qed.



(* ===================================================================== *)
(** * What every statement of the program preserves *)
(* ===================================================================== *)

Create HintDb preserves.

Lemma preserves_raises {A} R (m : M A) : preserves R m -> preserves_on_raise R m.
Proof. intros Hm w e w' Hrun. eapply Hm, Hrun. Qed.

Section Preserves.
Context `{Env}.
Variable R : world -> world -> Prop.
Hypothesis R_refl : forall w, R w w.
Hypothesis R_trans : forall w1 w2 w3, R w1 w2 -> R w2 w3 -> R w1 w3.
(** [R] looks at the files only. *)
Hypothesis R_trace : forall w t, R w (World (fs w) t).
Hypothesis R_makedirs : forall directory, preserves R (makedirs directory).
Hypothesis R_write_bytes : forall path body, preserves R (write_file path (Bytes body)).

Lemma preserves_ret {A} (a : A) : preserves R (ret a).
Proof. intros w o w' [= <- <-]. apply R_refl. Qed.

Lemma preserves_raise {A} e : preserves R (@raise A e).
Proof. intros w o w' [= <- <-]. apply R_refl. Qed.

Lemma preserves_lift {A} (o : outcome A) : preserves R (lift o).
Proof. intros w o' w' [= <- <-]. apply R_refl. Qed.

Lemma preserves_bind {A B} (m : M A) (k : A -> M B) :
  preserves R m -> (forall a, preserves R (k a)) -> preserves R (bind m k).
Proof.
  intros Hm Hk w o w'. unfold bind. destruct (m w) as [[a|e] w1] eqn:Hrun.
  - intros Hrun'. eapply R_trans; [eapply Hm, Hrun | eapply Hk, Hrun'].
  - intros [= <- <-]. eapply Hm, Hrun.
Qed.

Lemma preserves_on_raise_bind {A B} (m : M A) (k : A -> M B) :
  preserves R m -> (forall a, preserves_on_raise R (k a)) ->
  preserves_on_raise R (bind m k).
Proof.
  intros Hm Hk w e w' [Hrun | (a & w1 & Hrun & Hrun')]%bind_Raise.
  - eapply Hm, Hrun.
  - eapply R_trans; [eapply Hm, Hrun | eapply Hk, Hrun'].
Qed.

Lemma preserves_for_each {A S} (items : list A) (body : A -> S -> M S) :
  (forall x s, preserves R (body x s)) -> forall s, preserves R (for_each items body s).
Proof.
  intros Hbody. induction items as [|x items IH]; intros s; simpl.
  - apply preserves_ret.
  - apply preserves_bind; auto.
Qed.

Lemma preserves_emit e : preserves R (emit e).
Proof. intros w o w' [= <- <-]. apply R_trace. Qed.

Lemma preserves_isfile path : preserves R (isfile path).
Proof. intros w o w' [= <- <-]. apply R_refl. Qed.

Lemma preserves_exists path : preserves R (exists_ path).
Proof. intros w o w' [= <- <-]. apply R_refl. Qed.

Lemma preserves_http_get url : preserves R (http_get url).
Proof.
  intros w o w'. unfold http_get.
  destruct (server _ _); intros [= <- <-]; apply R_trace.
Qed.

#[local] Hint Resolve preserves_ret preserves_raise preserves_lift preserves_emit
  preserves_isfile preserves_exists preserves_http_get R_makedirs R_write_bytes : preserves.

(** Walks through a statement, one construct at a time. *)
Ltac preserves_tac :=
  repeat first
    [ progress eauto with preserves
    | apply preserves_bind; [| intros ?]
    | match goal with
      | |- preserves _ (if ?b then _ else _) => destruct b
      | |- preserves _ (match ?x with _ => _ end) => destruct x
      end ].

Lemma preserves_call pdf op : preserves R (call pdf op).
Proof. unfold call. preserves_tac. Qed.

Lemma preserves_print line : preserves R (print line).
Proof. apply preserves_emit. Qed.

#[local] Hint Resolve preserves_call preserves_print : preserves.

Lemma preserves_write pdf size x y text : preserves R (write pdf size x y text).
Proof. unfold write. preserves_tac. Qed.

Lemma preserves_multi_cell pdf size x y width height text :
  preserves R (multi_cell pdf size x y width height text).
Proof. unfold multi_cell. preserves_tac. Qed.

Lemma preserves_get_or_make_dir base_path dir_name :
  preserves R (get_or_make_dir base_path dir_name).
Proof. unfold get_or_make_dir. preserves_tac. Qed.

Lemma preserves_save_image self url name ext height :
  preserves R (save_image self url name ext height).
Proof. unfold save_image. preserves_tac. Qed.

#[local] Hint Resolve preserves_write preserves_multi_cell preserves_get_or_make_dir
  preserves_save_image : preserves.

Lemma preserves_output_path self recipe : preserves R (output_path self recipe).
Proof. unfold output_path. preserves_tac. Qed.

Lemma preserves_ingredient_body self recipe item vars :
  preserves R (ingredient_body self recipe item vars).
Proof. unfold ingredient_body. destruct item, vars. preserves_tac. Qed.

Lemma preserves_step_body self recipe steps_y item pdf :
  preserves R (step_body self recipe steps_y item pdf).
Proof. unfold step_body. destruct item. preserves_tac. Qed.

#[local] Hint Resolve preserves_output_path preserves_ingredient_body
  preserves_step_body : preserves.

Lemma preserves_compose self recipe : preserves R (compose self recipe).
Proof.
  unfold compose.
  repeat first
    [ apply preserves_for_each; intros ? ?
    | progress eauto with preserves
    | apply preserves_bind; [| intros ?]
    | match goal with
      | |- preserves _ (let '(_, _) := ?x in _) => destruct x
      end ].
Qed.

(** Whatever a failed recipe did, it did before [pdf.output]. *)
Lemma preserves_on_raise_process_recipe self recipe :
  preserves_on_raise R (process_recipe self recipe).
Proof.
  unfold process_recipe.
  destruct (_ || _); [apply preserves_raises, preserves_ret|].
  apply preserves_on_raise_bind; [apply preserves_lift | intros recipe'].
  apply preserves_on_raise_bind; [apply preserves_output_path | intros path].
  apply preserves_on_raise_bind; [apply preserves_exists | intros [|]].
  { apply preserves_raises, preserves_ret. }
  apply preserves_on_raise_bind; [apply preserves_compose | intros pdf].
  intros w e w'. unfold bind, write_file, print, emit.
  destruct (fs w !! path) as [[|c]|]; intros [= <- <-]. apply R_refl.
Qed.


(** What every recipe preserves, a batch preserves, whatever its outcome. *)
Lemma preserves_run_tasks self tasks :
  (forall recipe, preserves R (process_recipe self recipe)) ->
  forall failure, preserves R (run_tasks self tasks failure).
Proof.
  intros Hrecipe. induction tasks as [|task tasks IH]; intros failure w o w'.
  - cbn [run_tasks]. destruct failure; intros [= <- <-]; apply R_refl.
  - cbn [run_tasks].
    destruct (mapstar self task w) as [[[]|e] w1] eqn:Htask; intros Hrest;
      (eapply R_trans; [|eapply IH, Hrest]);
      (eapply (preserves_for_each task (fun recipe _ => process_recipe self recipe));
        [intros recipe []; apply Hrecipe | exact Htask]).
Qed.

Lemma preserves_process_all_recipes self recipes :
  (forall recipe, preserves R (process_recipe self recipe)) ->
  preserves R (process_all_recipes self recipes).
Proof. intros Hrecipe. by apply preserves_run_tasks. Qed.

End Preserves.

(** ** The two relations *)






Lemma no_new_document_refl w : no_new_document w w.
Proof. intros p pdf. auto. Qed.

Lemma no_new_document_trans w1 w2 w3 :
  no_new_document w1 w2 -> no_new_document w2 w3 -> no_new_document w1 w3.
Proof. intros H12 H23 p pdf Hp. auto. Qed.

Lemma no_new_document_trace w t : no_new_document w (World (fs w) t).
Proof. intros p pdf. auto. Qed.

Lemma no_new_document_makedirs directory : preserves no_new_document (makedirs directory).
Proof.
  intros w o w'. unfold makedirs.
  destruct (fs w !! directory) as [[|c]|] eqn:Hdir; intros [= <- <-];
    try apply no_new_document_refl.
  intros p pdf. simpl. destruct (decide (directory = p)) as [<-|Hne].
  - rewrite lookup_insert_eq. discriminate.
  - rewrite lookup_insert_ne by done. auto.
Qed.

Lemma no_new_document_write_bytes path body :
  preserves no_new_document (write_file path (Bytes body)).
Proof.
  intros w o w'. unfold write_file.
  assert (no_new_document w (World (<[path := File (Bytes body)]> (fs w)) (trace w)))
    as Hnew.
  { intros p pdf. simpl. destruct (decide (path = p)) as [<-|Hne].
    - rewrite lookup_insert_eq. discriminate.
    - rewrite lookup_insert_ne by done. auto. }
  destruct (fs w !! path) as [[|c']|]; intros [= <- <-];
    [apply no_new_document_refl | done ..].
Qed.

Section Claims.
Context `{Env}.


(* ===================================================================== *)
(** * Skipping and failing *)
(* ===================================================================== *)

(** ** C4.  A recipe whose steps or whose ingredients are the empty
    sequence is skipped: processing returns, and leaves the world as it
    was (no file written, no image fetched, no call made on a document). *)
Theorem malformed_recipe_is_skipped self recipe w :
  getattr recipe "steps" = PyList [] \/ getattr recipe "ingredients" = PyList [] ->
  process_recipe self recipe w = (Return tt, w).
Proof.
  intros Hempty. unfold process_recipe.
  destruct Hempty as [-> | ->]; simpl; [|rewrite orb_true_r]; reflexivity.
Qed.

(** ** C8.  A recipe whose processing raises (on a failed image fetch as on
    anything else) has written no document: every document of the file
    system after the failure was there, unchanged, before. *)
Theorem failed_recipe_writes_no_document self recipe w e w' :
  process_recipe self recipe w = (Raise e, w') -> no_new_document w w'.
Proof.
  apply preserves_on_raise_process_recipe;
    eauto using no_new_document_refl, no_new_document_trans, no_new_document_trace,
      no_new_document_makedirs, no_new_document_write_bytes.
Qed.

(** ** C2.  A name with [" with"] twice cannot be split into a name and a
    headline: the derivation raises, and so does the processing of the
    recipe, before anything is done. *)
Theorem split_name_raises_on_second_with :
  getattr Sample.twice_with "name" = PyStr "Chicken with Rice with Beans" /\
  split_name Sample.twice_with = Raise ValueError /\
  forall self w, process_recipe self Sample.twice_with w = (Raise ValueError, w).
Proof. repeat split. Qed.

(** The name of the specification's example splits as it says. *)
Lemma split_name_example :
  exists recipe,
    split_name Sample.chicken = Return recipe /\
    getattr recipe "name" = PyStr "Seared Chicken" /\
    getattr recipe "headline" = PyStr "With Lemon Sauce".
Proof. eexists. repeat split. Qed.

(** A name without [" with"] is left alone, headline included. *)
Lemma split_name_without name recipe :
  getattr recipe "name" = PyStr name -> contains " with" name = false ->
  split_name recipe = Return recipe.
Proof. intros Hname Hwith. unfold split_name. rewrite Hname. simpl. now rewrite Hwith. Qed.

(* ===================================================================== *)
(** * Doing nothing twice *)
(* ===================================================================== *)

Lemma makedirs_Return directory w w1 :
  makedirs directory w = (Return tt, w1) ->
  fs w1 !! directory = Some Dir /\ trace w1 = trace w /\
  (forall p c, fs w1 !! p = Some (File c) <-> fs w !! p = Some (File c)).
Proof.
  unfold makedirs. destruct (fs w !! directory) as [[|c]|] eqn:Hdir; intros [= <-]; simpl.
  - done.
  - rewrite lookup_insert_eq. repeat split; try done.
    + destruct (decide (directory = p)) as [<-|Hne];
        [rewrite lookup_insert_eq; discriminate | by rewrite lookup_insert_ne].
    + destruct (decide (directory = p)) as [<-|Hne];
        [rewrite Hdir; discriminate | by rewrite lookup_insert_ne].
Qed.

Lemma makedirs_there directory w :
  fs w !! directory = Some Dir -> makedirs directory w = (Return tt, w).
Proof. unfold makedirs. now intros ->. Qed.



















End Claims.

(* ===================================================================== *)
(** * The grid of ingredients and the stack of steps *)
(* ===================================================================== *)

Lemma ceil_div4_rows n : ceil_div4 n = Layout.rows n.
Proof. unfold ceil_div4, Layout.rows. Z.to_euclidean_division_equations. lia. Qed.


(** [enumerate] gives every item its position. *)
Lemma enumerate_from_positions {A} (l : list A) : forall i,
  enumerate_from i l = imap (fun k x => (i + Z.of_nat k, x)) l.
Proof.
  induction l as [|x l IH]; intros i; [done|].
  cbn [enumerate_from imap]. rewrite Z.add_0_r. f_equal.
  rewrite IH. apply imap_ext. intros k y _. cbn. f_equal. lia.
Qed.

Lemma enumerate_positions {A} (l : list A) : enumerate l = positions l.
Proof. unfold enumerate, positions. by rewrite enumerate_from_positions. Qed.

#[local] Arguments prepare_str : simpl never.
#[local] Arguments str : simpl never.
#[local] Arguments in_strs : simpl never.

Section Grid.
Context `{Env}.

Lemma call_run pdf op w :
  call pdf op w = (Return (pdf ++ [op]), World (fs w) (trace w ++ [Draw op])).
Proof. reflexivity. Qed.

Lemma write_Return pdf size x y text w pdf' w' :
  write pdf size x y text w = (Return pdf', w') ->
  pdf' = pdf ++ [set_font_size size; set_xy x y; pdf_write 0 text].
Proof. intros [= <- _]. by rewrite <- !app_assoc. Qed.

Lemma multi_cell_Return pdf size x y width height text w pdf' w' :
  multi_cell pdf size x y width height text w = (Return pdf', w') ->
  pdf' = pdf ++ [set_font_size size; set_xy x y; pdf_multi_cell width height text].
Proof. intros [= <- _]. by rewrite <- !app_assoc. Qed.

(** The image cache answers with the path derived from the key and the
    extension, fetched or not. *)
Lemma save_image_Return self url name ext height w path w' :
  save_image self url name ext height w = (Return path, w') ->
  path = cache_path self name ext.
Proof.
  unfold save_image. intros (cached & w1 & _ & Hrun)%bind_Return.
  destruct cached; [by apply ret_Return in Hrun as [-> _]|].
  destruct url; try discriminate.
  apply bind_Return in Hrun as (resp & w2 & _ & Hrun).
  destruct resp as [status_code body|]; [|discriminate].
  destruct (decide (status_code = 200)) as [->|Hne].
  - apply bind_Return in Hrun as (? & ? & _ & Hrun). by apply ret_Return in Hrun as [-> _].
  - destruct status_code as [|[]|]; try discriminate; repeat (destruct p; try discriminate);
      contradiction.
Qed.

(** One turn of the loop over the ingredients: an excluded ingredient
    changes nothing, any other one fills slot [num_ingr]. *)
Lemma ingredient_body_Return self recipe item num_ingr pdf w num_ingr' pdf' w' :
  ingredient_body self recipe item (num_ingr, pdf) w = (Return (num_ingr', pdf'), w') ->
  if excluded item then num_ingr' = num_ingr /\ pdf' = pdf /\ w' = w
  else num_ingr' = num_ingr + 1 /\
       exists block, grid_block self recipe num_ingr item = Return block /\
                     pdf' = pdf ++ block.
Proof.
  destruct item as [idx ingr]. unfold ingredient_body, excluded, grid_block. cbn [fst snd].
  intros (name & ? & [Hname ->]%lift_Return & Hrun)%bind_Return.
  rewrite Hname. cbn [bind_outcome].
  destruct (in_strs name COMMON_INGREDIENTS).
  { by apply ret_Return in Hrun as [[= -> ->] ->]. }
  apply bind_Return in Hrun as (image_path & ? & [Himage ->]%lift_Return & Hrun).
  apply bind_Return in Hrun as (pdf1 & w1 & Hpicture & Hrun).
  apply bind_Return in Hrun as ([ln_1 ln_2] & ? & [Hlines ->]%lift_Return & Hrun).
  apply bind_Return in Hrun as (pdf2 & w2 & ->%write_Return & Hrun).
  apply bind_Return in Hrun as (pdf3 & w3 & ->%write_Return & Hrun).
  apply ret_Return in Hrun as [[= -> ->] ->].
  split; [done|]. rewrite Himage, Hlines. cbn [bind_outcome fst snd].
  unfold Layout.picture, Layout.texts, Layout.column, Layout.row, floor_div4 in *.
  destruct (truthy image_path).
  - apply bind_Return in Hpicture as (key & ? & [Hkey ->]%lift_Return & Hpicture).
    apply bind_Return in Hpicture as (img & w0 & ->%save_image_Return & Hpicture).
    rewrite call_run in Hpicture. injection Hpicture as <- _.
    rewrite Hkey. cbn [bind_outcome]. eexists. split; [done|].
    by rewrite <- !app_assoc.
  - apply ret_Return in Hpicture as [-> _]. cbn [bind_outcome]. eexists. split; [done|].
    by rewrite <- !app_assoc.
Qed.



(** The loop over the ingredients fills the slots in order, from the slot
    the counter stands at, with the ingredients that are not excluded. *)
Lemma ingredients_loop_Return self recipe items : forall num_ingr pdf w num_ingr' pdf' w',
  for_each items (ingredient_body self recipe) (num_ingr, pdf) w
    = (Return (num_ingr', pdf'), w') ->
  num_ingr' = num_ingr + Z.of_nat (length (rendered items)) /\
  exists grid, blocks_from (grid_block self recipe) num_ingr (rendered items) = Return grid /\
               pdf' = pdf ++ grid.
Proof.
  unfold rendered.
  induction items as [|item items IH]; intros num_ingr pdf w num_ingr' pdf' w' Hrun.
  - apply ret_Return in Hrun as [[= -> ->] ->]. simpl. split; [lia|].
    exists []. by rewrite app_nil_r.
  - simpl in Hrun. apply bind_Return in Hrun as ([num1 pdf1] & w1 & Hbody & Hrun).
    apply ingredient_body_Return in Hbody. apply IH in Hrun as (-> & grid & Hgrid & ->).
    destruct (excluded item) eqn:Hexcluded.
    + destruct Hbody as (-> & -> & ->).
      rewrite filter_cons_False by (by rewrite Hexcluded). eauto.
    + destruct Hbody as (-> & block & Hblock & ->).
      rewrite filter_cons_True by done. simpl. split; [lia|].
      rewrite Hblock, Hgrid. simpl. eexists. split; [done|]. by rewrite app_assoc.
Qed.

(** One turn of the loop over the steps. *)
Lemma step_body_Return self recipe n item pdf w pdf' w' :
  step_body self recipe (67 + 13 * ceil_div4 n) item pdf w = (Return pdf', w') ->
  exists block, step_block self recipe n item = Return block /\ pdf' = pdf ++ block.
Proof.
  destruct item as [j step]. unfold step_body, step_block, step_image.
  unfold Layout.step_picture, Layout.step_text, Layout.step_y.
  rewrite <- ceil_div4_rows. replace (26 * j) with (j * 26) by lia.
  intros (usable & ? & [Husable ->]%lift_Return & Hrun)%bind_Return.
  apply bind_Return in Hrun as (pdf1 & w1 & Hpicture & Hrun).
  apply bind_Return in Hrun as (instructions & ? & [Hinstr ->]%lift_Return & Hrun).
  apply bind_Return in Hrun as (text & ? & [Htext ->]%lift_Return & Hrun).
  apply multi_cell_Return in Hrun as ->.
  rewrite Hinstr. cbn [bind_outcome].
  destruct (subscript_str step "images") as [images|]; [cbn [bind_outcome] in *|discriminate].
  destruct (truthy images).
  - destruct (subscript_int images 0) as [first|]; [cbn [bind_outcome] in *|discriminate].
    destruct (subscript_str first "path") as [path|]; [cbn [bind_outcome] in *|discriminate].
    injection Husable as <-. destruct (truthy path); cbn [bind_outcome].
    + apply bind_Return in Hpicture as (path' & ? & [[= <-] ->]%lift_Return & Hpicture).
      apply bind_Return in Hpicture as (key & ? & [Hkey ->]%lift_Return & Hpicture).
      apply bind_Return in Hpicture as (img & w0 & ->%save_image_Return & Hpicture).
      rewrite call_run in Hpicture. injection Hpicture as <- _.
      rewrite Hkey, Htext. cbn [bind_outcome]. eexists. split; [done|]. by rewrite <- !app_assoc.
    + apply ret_Return in Hpicture as [-> _]. rewrite Htext. cbn [bind_outcome]. eauto.
  - injection Husable as <-. apply ret_Return in Hpicture as [-> _].
    rewrite Htext. cbn [bind_outcome]. eauto.
Qed.

Lemma steps_loop_Return self recipe n items : forall k pdf w pdf' w',
  for_each items (step_body self recipe (67 + 13 * ceil_div4 n)) pdf w = (Return pdf', w') ->
  exists blocks, blocks_from (fun _ => step_block self recipe n) k items = Return blocks /\
                 pdf' = pdf ++ blocks.
Proof.
  induction items as [|item items IH]; intros k pdf w pdf' w' Hrun.
  - apply ret_Return in Hrun as [-> _]. exists []. by rewrite app_nil_r.
  - simpl in Hrun. apply bind_Return in Hrun as (pdf1 & w1 & Hbody & Hrun).
    apply step_body_Return in Hbody as (block & Hblock & ->).
    apply (IH (k + 1)) in Hrun as (blocks & Hblocks & ->).
    simpl. rewrite Hblock, Hblocks. simpl. eexists. split; [done|]. by rewrite app_assoc.
Qed.

(** ** C5.  The document composed for a recipe with the ingredients
    [ingredients] and the steps [steps] ends with the grid and the stack:
    the blocks of the ingredients that are not excluded, the [k]-th of them
    ([k] from 0) in slot [k] -- image at [(10 + 46 (k mod 4), 62 + 13 (k / 4))]
    with height 12, primary text at [(22 + 46 (k mod 4), 66 + 13 (k / 4))],
    secondary text at the same [x] and [y = 70 + 13 (k / 4)] -- and then the
    blocks of the steps, step [j] at [y = 67 + 13 ceil(n / 4) + 26 j] for [n]
    ingredients in the grid, its image at [x = 10] with width 36 and its
    wrapped text at [x = 50] with width 145. *)
Theorem document_layout self recipe ingredients steps w pdf w' :
  getattr recipe "ingredients" = PyList ingredients ->
  getattr recipe "steps" = PyList steps ->
  compose self recipe w = (Return pdf, w') ->
  exists header grid blocks,
    let items := rendered (positions ingredients) in
    let n := Z.of_nat (length items) in
    blocks_from (grid_block self recipe) 0 items = Return grid /\
    blocks_from (fun _ => step_block self recipe n) 0 (positions steps) = Return blocks /\
    pdf = header ++ grid ++ blocks.
Proof.
  unfold compose. intros Hingredients Hsteps Hrun.
  rewrite Hingredients, Hsteps in Hrun. cbn [iterate] in Hrun.
  do 17 (apply bind_Return in Hrun as (? & ? & _ & Hrun)).
  apply bind_Return in Hrun as (header & ? & _ & Hrun).
  apply bind_Return in Hrun as (? & ? & [[= <-] ->]%lift_Return & Hrun).
  apply bind_Return in Hrun as ([num_ingr pdf1] & w1 & Hloop & Hrun).
  apply bind_Return in Hrun as (? & ? & [[= <-] ->]%lift_Return & Hrun).
  apply ingredients_loop_Return in Hloop as (-> & grid & Hgrid & ->).
  rewrite Z.add_0_l in Hrun.
  apply (steps_loop_Return _ _ _ _ 0) in Hrun as (blocks & Hblocks & ->).
  rewrite enumerate_positions in Hgrid, Hblocks, Hblocks.
  exists header, grid, blocks.
  repeat split; try done. by rewrite app_assoc.
Qed.


(** ** C10.  An ingredient is excluded exactly when its name is, character
    for character, one of ["Salt"], ["Pepper"], ["Sugar"], ["Butter"].  One
    named ["salt"], ["SALT"] or ["Sea Salt"] is not excluded: whenever its
    turn of the loop returns, the counter has advanced by one and the
    document has its block, the two lines of text of the slot the counter
    stood at included. *)
Theorem exclusion_is_exact_match self recipe :
  (forall name, in_strs (PyStr name) COMMON_INGREDIENTS = true <->
                name = "Salt" \/ name = "Pepper" \/ name = "Sugar" \/ name = "Butter") /\
  (forall name idx ingr num_ingr pdf w num_ingr' pdf' w',
     name = "salt" \/ name = "SALT" \/ name = "Sea Salt" ->
     subscript_str ingr "name" = Return (PyStr name) ->
     excluded (idx, ingr) = false /\
     (ingredient_body self recipe (idx, ingr) (num_ingr, pdf) w
        = (Return (num_ingr', pdf'), w') ->
      num_ingr' = num_ingr + 1 /\
      exists picture ln_1 ln_2,
        pdf' = pdf ++ picture ++ Layout.texts num_ingr ln_1 ln_2)).
Proof.
  split.
  - intros name. unfold in_strs, COMMON_INGREDIENTS, eq_str. cbn [existsb].
    rewrite !orb_true_iff, !String.eqb_eq. intuition discriminate.
  - intros name idx ingr num_ingr pdf w num_ingr' pdf' w' Hname Hingr.
    assert (excluded (idx, ingr) = false) as Hexcluded.
    { unfold excluded. cbn [snd]. rewrite Hingr.
      destruct Hname as [-> | [-> | ->]]; reflexivity. }
    split; [done|]. intros Hrun.
    apply ingredient_body_Return in Hrun. rewrite Hexcluded in Hrun.
    destruct Hrun as (-> & block & Hblock & ->). split; [done|].
    unfold grid_block in Hblock.
    apply bind_outcome_Return in Hblock as (? & _ & Hblock).
    apply bind_outcome_Return in Hblock as (? & _ & Hblock).
    apply bind_outcome_Return in Hblock as (picture & _ & Hblock).
    apply bind_outcome_Return in Hblock as (lines & _ & [= <-]).
    eauto.
Qed.

End Grid.

(* ===================================================================== *)
(** * The theorems at work on the sample data *)
(* ===================================================================== *)

Lemma malformed_recipe_is_skipped_witness :
  @process_recipe Sample.env_ok Sample.self Sample.no_steps Sample.empty_world
    = (Return tt, Sample.empty_world).
Proof.
  apply (@malformed_recipe_is_skipped Sample.env_ok Sample.self Sample.no_steps
           Sample.empty_world).
  left. reflexivity.
Defined.

Lemma failed_recipe_writes_no_document_witness :
  fst (@process_recipe Sample.env_404 Sample.self Sample.chicken Sample.empty_world)
    = Raise (Exception 404) /\
  no_new_document Sample.empty_world
    (snd (@process_recipe Sample.env_404 Sample.self Sample.chicken Sample.empty_world)).
Proof.
  split; [vm_compute; reflexivity|].
  apply (@failed_recipe_writes_no_document Sample.env_404 Sample.self Sample.chicken
           Sample.empty_world (Exception 404)).
  vm_compute. reflexivity.
Defined.



Lemma document_layout_witness :
  exists header,
    fst (@compose Sample.env_ok Sample.self Sample.chicken Sample.made_world)
      = Return (header ++ More.chicken_grid ++ More.chicken_stack).
Proof.
  destruct (@document_layout Sample.env_ok Sample.self Sample.chicken
              Sample.chicken_ingredients More.chicken_steps Sample.made_world
              Sample.chicken_pdf
              (snd (@compose Sample.env_ok Sample.self Sample.chicken Sample.made_world)))
    as (header & grid & blocks & Hgrid & Hblocks & Hpdf).
  - reflexivity.
  - reflexivity.
  - vm_compute. reflexivity.
  - vm_compute in Hgrid, Hblocks.
    injection Hgrid as <-. injection Hblocks as <-.
    exists header.
    unfold More.chicken_grid, More.chicken_stack.
    rewrite <- Hpdf. vm_compute. reflexivity.
Defined.


Lemma exclusion_is_exact_match_witness :
  excluded Sample.small_salt_item = false /\
  exists picture ln_1 ln_2,
    @ingredient_body Sample.env_ok Sample.self Sample.chicken Sample.small_salt_item
      (2, []) Sample.empty_world
      = (Return (3, picture ++ Layout.texts 2 ln_1 ln_2),
         snd (@ingredient_body Sample.env_ok Sample.self Sample.chicken
                Sample.small_salt_item (2, []) Sample.empty_world)).
Proof.
  destruct (@exclusion_is_exact_match Sample.env_ok Sample.self Sample.chicken)
    as (_ & Hrendered).
  destruct (Hrendered "salt" 4 (snd Sample.small_salt_item) 2 [] Sample.empty_world 3
              [set_font_size 9; set_xy 114 66; pdf_write 0 (PyStr "¼ teaspoon");
               set_font_size 7; set_xy 114 70; pdf_write 0 (PyStr "salt")]
              (snd (@ingredient_body Sample.env_ok Sample.self Sample.chicken
                      Sample.small_salt_item (2, []) Sample.empty_world)))
    as (Hexcluded & Hslot).
  - left. reflexivity.
  - reflexivity.
  - split; [exact Hexcluded|].
    destruct Hslot as (_ & picture & ln_1 & ln_2 & Hpdf); [vm_compute; reflexivity|].
    exists picture, ln_1, ln_2. cbn [app] in Hpdf. rewrite <- Hpdf.
    vm_compute. reflexivity.
Defined.

(* ===================================================================== *)
(** * AttrDict and get_or_make_dir *)
(* ===================================================================== *)

Lemma getattr_setattr (d : dict) (name : string) (v : value) :
  getattr (setattr d name v) name = v.
Proof.
  unfold getattr, setattr. induction d as [|[k x] d IH]; simpl.
  - by rewrite String.eqb_refl.
  - destruct (String.eqb_spec k name) as [->|Hne]; simpl.
    + by rewrite String.eqb_refl.
    + by apply String.eqb_neq in Hne as ->.
Qed.

Lemma getattr_setattr_other (d : dict) (name other : string) (v : value) :
  other <> name -> getattr (setattr d name v) other = getattr d other.
Proof.
  unfold getattr, setattr. intros Hother. induction d as [|[k x] d IH]; simpl.
  - by apply not_eq_sym, String.eqb_neq in Hother as ->.
  - destruct (String.eqb_spec k name) as [->|Hne]; simpl.
    + by apply not_eq_sym, String.eqb_neq in Hother as ->.
    + destruct (String.eqb k other); [done | apply IH].
Qed.

(** ** X1.  For the attributes the program uses on a recipe: one that was
    set is read back as the value set, and setting it leaves each of the
    others as it was. *)
Theorem attrdict_set_get (d : dict) (name : string) (v : value) :
  name ∈ recipe_attributes ->
  getattr (setattr d name v) name = v /\
  forall other,
    other ∈ recipe_attributes -> other <> name ->
    getattr (setattr d name v) other = getattr d other.
Proof.
  intros _. split; [apply getattr_setattr | intros other _; apply getattr_setattr_other].
Qed.

Section Directories.
Context `{Env}.

(** ** X2.  [get_or_make_dir] returns the joined path, which is a
    directory from then on; it touches no file and makes no call, and asking
    again changes nothing. *)
Theorem get_or_make_dir_makes_directory base_path name w directory w' :
  get_or_make_dir base_path (PyStr name) w = (Return directory, w') ->
  directory = path_join base_path name /\
  fs w' !! directory = Some Dir /\
  trace w' = trace w /\
  files_kept w w' /\
  get_or_make_dir base_path (PyStr name) w' = (Return directory, w').
Proof.
  unfold get_or_make_dir.
  intros ([] & w1 & Hdir & [-> ->]%ret_Return)%bind_Return.
  pose proof Hdir as (Hthere & Htrace & Hfiles)%makedirs_Return.
  repeat split; try done.
  - intros p c. apply Hfiles.
  - by rewrite (bind_run _ _ _ _ _ (makedirs_there _ _ Hthere)).
Qed.

(** Where a file stands at the joined path, [get_or_make_dir] raises
    [FileExistsError] and changes nothing. *)
Lemma get_or_make_dir_over_file base_path name w c :
  fs w !! path_join base_path name = Some (File c) ->
  get_or_make_dir base_path (PyStr name) w = (Raise FileExistsError, w).
Proof. unfold get_or_make_dir, makedirs, bind. by intros ->. Qed.

(** ** X3.  The path of a document is the normalized name with [.pdf],
    joined to [RECIPE_DIR] for a recipe with no author (nothing is made
    then) and to [os.path.join(RECIPE_DIR, author)] otherwise, the author
    being a str and that joined path a directory from then on.  (Where the
    joined path lies is for [os.path.join] to say: an absolute author is a
    path of its own.) *)
Theorem output_path_resolves self recipe w path w1 :
  output_path self recipe w = (Return path, w1) ->
  exists file_name,
    prepare_str (PyStr (str (getattr recipe "name") +:+ ".pdf")) true = Return file_name /\
    match getattr recipe "author" with
    | PyNone => path = path_join (RECIPE_DIR self) file_name /\ w1 = w
    | author =>
        exists name,
          author = PyStr name /\
          path = path_join (path_join (RECIPE_DIR self) name) file_name /\
          fs w1 !! path_join (RECIPE_DIR self) name = Some Dir
    end.
Proof.
  unfold output_path. intros (dest_dir & w2 & Hdir & Hrun)%bind_Return.
  apply bind_Return in Hrun as (file_name & ? & [Hname ->]%lift_Return & [-> ->]%ret_Return).
  exists file_name. split; [done|].
  destruct (getattr recipe "author") as [| | |name| |]; try discriminate.
  - by apply ret_Return in Hdir as [-> ->].
  - unfold get_or_make_dir in Hdir.
    apply bind_Return in Hdir as ([] & w3 & Hthere & [-> ->]%ret_Return).
    apply makedirs_Return in Hthere as (Hthere & _). eauto.
Qed.

End Directories.

Lemma output_path_resolves_witness :
  exists file_name,
    prepare_str (PyStr (@str Sample.env_ok (getattr More.by_jamie "name") +:+ ".pdf")) true
      = Return file_name /\
    match getattr More.by_jamie "author" with
    | PyNone => "recipes/Jamie/Seared Chicken.pdf" = @path_join Sample.env_ok "recipes" file_name /\
                snd (@output_path Sample.env_ok Sample.self More.by_jamie Sample.empty_world)
                  = Sample.empty_world
    | author =>
        exists name,
          author = PyStr name /\
          "recipes/Jamie/Seared Chicken.pdf"
            = @path_join Sample.env_ok (@path_join Sample.env_ok "recipes" name) file_name /\
          fs (snd (@output_path Sample.env_ok Sample.self More.by_jamie Sample.empty_world))
            !! @path_join Sample.env_ok "recipes" name = Some Dir
    end.
Proof.
  apply (@output_path_resolves Sample.env_ok Sample.self More.by_jamie Sample.empty_world).
  vm_compute. reflexivity.
Defined.

Lemma attrdict_set_get_witness :
  getattr (setattr Sample.chicken "headline" (PyStr "With Lemon Sauce")) "headline"
    = PyStr "With Lemon Sauce" /\
  getattr (setattr Sample.chicken "headline" (PyStr "With Lemon Sauce")) "name"
    = getattr Sample.chicken "name".
Proof.
  destruct (attrdict_set_get Sample.chicken "headline" (PyStr "With Lemon Sauce"))
    as [Hread Hothers].
  - apply list_elem_of_In. vm_compute. tauto.
  - split; [exact Hread|]. apply Hothers; [|discriminate].
    apply list_elem_of_In. vm_compute. tauto.
Defined.

Lemma get_or_make_dir_makes_directory_witness :
  fs (snd (@get_or_make_dir Sample.env_ok "recipes" (PyStr "Jamie") Sample.empty_world))
    !! "recipes/Jamie" = Some Dir.
Proof.
  apply (@get_or_make_dir_makes_directory Sample.env_ok "recipes" "Jamie"
           Sample.empty_world "recipes/Jamie").
  vm_compute. reflexivity.
Defined.

Lemma get_or_make_dir_over_file_witness :
  @get_or_make_dir Sample.env_ok "recipes" (PyStr "Seared Chicken.pdf") Sample.after_batch
    = (Raise FileExistsError, Sample.after_batch).
Proof.
  eapply (@get_or_make_dir_over_file Sample.env_ok "recipes" "Seared Chicken.pdf"
            Sample.after_batch).
  vm_compute. reflexivity.
Defined.

(* ===================================================================== *)
(** * Replacing and splitting *)
(* ===================================================================== *)

Lemma occurs_app c s1 s2 : occurs c (s1 +:+ s2) = occurs c s1 || occurs c s2.
Proof. induction s1 as [|x s1 IH]; simpl; [done|]. by rewrite IH, orb_assoc. Qed.

(** A replacement brings in no character that neither the string nor the
    new text had. *)
Lemma occurs_replace_from c old new s : forall skip,
  occurs c s = false -> occurs c new = false ->
  occurs c (replace_from old new skip s) = false.
Proof.
  induction s as [|x s IH]; intros skip Hs Hnew; [done|].
  cbn [occurs] in Hs. apply orb_false_iff in Hs as [Hx Hs].
  cbn [replace_from]. destruct skip; [|by apply IH].
  destruct (String.prefix old (String x s)).
  - rewrite occurs_app, Hnew. by apply IH.
  - cbn [occurs]. rewrite Hx. by apply IH.
Qed.

Lemma occurs_replace c old new s :
  occurs c s = false -> occurs c new = false -> occurs c (replace old new s) = false.
Proof. unfold replace. destruct old; [done|]. by apply occurs_replace_from. Qed.

(** Replacing a character by a text without it leaves none of it. *)
Lemma occurs_replace_char c new s :
  occurs c new = false -> occurs c (replace (String c EmptyString) new s) = false.
Proof.
  intros Hnew. unfold replace. induction s as [|x s IH]; [done|].
  cbn [replace_from String.prefix String.length Nat.pred].
  destruct (ascii_dec c x) as [<-|Hne].
  - assert (String.prefix EmptyString s = true) as -> by (by destruct s).
    by rewrite occurs_app, Hnew.
  - cbn [occurs]. rewrite IH. by apply Ascii.eqb_neq in Hne as ->.
Qed.

Lemma contains_cons old x s :
  contains old (String x s) = false ->
  String.prefix old (String x s) = false /\ contains old s = false.
Proof. simpl. by intros [? ?]%orb_false_iff. Qed.

(** A string without the pattern is left as it is. *)
Lemma replace_absent old new s : contains old s = false -> replace old new s = s.
Proof.
  unfold replace. destruct old as [|a old]; [done|].
  induction s as [|x s IH]; [done|].
  intros [Hprefix Hrest]%contains_cons. cbn [replace_from]. rewrite Hprefix.
  by rewrite IH.
Qed.

Lemma prefix_occurs c old s :
  String.prefix old s = true -> occurs c old = true -> occurs c s = true.
Proof.
  revert s. induction old as [|a old IH]; intros s Hprefix Hc; [done|].
  destruct s as [|x s]; [done|]. simpl in *.
  destruct (ascii_dec a x) as [<-|]; [|done].
  apply orb_true_iff in Hc as [-> | Hc]; [done|].
  rewrite (IH s); [apply orb_true_r | done ..].
Qed.

(** A string that lacks a character of the pattern lacks the pattern. *)
Lemma contains_occurs c old s :
  occurs c old = true -> occurs c s = false -> contains old s = false.
Proof.
  intros Hold. induction s as [|x s IH]; intros Hs.
  - cbn [contains]. destruct old; [done|]. by rewrite orb_false_r.
  - destruct (contains old (String x s)) eqn:Hcontains; [|done].
    cbn [contains] in Hcontains.
    apply orb_true_iff in Hcontains as [Hprefix | Hrest].
    + apply (prefix_occurs c) in Hprefix; [|done]. by rewrite Hs in Hprefix.
    + cbn [occurs] in Hs. apply orb_false_iff in Hs as [Hx Hs].
      by rewrite IH in Hrest.
Qed.

Lemma split_from_nonempty sep s : forall skip, split_from sep skip s <> [].
Proof.
  induction s as [|x s IH]; intros skip; cbn [split_from]; [done|].
  destruct skip; [|apply IH].
  destruct (String.prefix sep (String x s)); [done|].
  by destruct (split_from sep 0 s).
Qed.

(** A string without the separator is one field. *)
Lemma split_absent sep s : contains sep s = false -> split sep s = [s].
Proof.
  unfold split. induction s as [|x s IH]; [done|].
  intros [Hprefix Hrest]%contains_cons. cbn [split_from]. rewrite Hprefix.
  by rewrite IH.
Qed.

Lemma prefix_drop old s :
  String.prefix old s = true -> s = old +:+ string_drop (String.length old) s.
Proof.
  revert s. induction old as [|a old IH]; intros s Hprefix; [done|].
  destruct s as [|x s]; [done|]. cbn [String.prefix] in Hprefix.
  destruct (ascii_dec a x) as [<-|]; [|done].
  change (String a s = String a (old +:+ string_drop (String.length old) s)).
  f_equal. by apply IH.
Qed.

Lemma prefix_length old s : String.prefix old s = true -> (String.length old <= String.length s)%nat.
Proof.
  revert s. induction old as [|a old IH]; intros s Hprefix; simpl; [lia|].
  destruct s as [|x s]; [done|]. simpl in *.
  destruct (ascii_dec a x); [|done]. apply IH in Hprefix. lia.
Qed.

Lemma concat_cons sep x field fields :
  String.concat sep (String x field :: fields) = String x (String.concat sep (field :: fields)).
Proof. by destruct fields. Qed.

(** Joining the fields of a split with the separator gives the string
    back. *)
Lemma concat_split_from a sep s : forall skip,
  (skip <= String.length s)%nat ->
  String.concat (String a sep) (split_from (String a sep) skip s) = string_drop skip s.
Proof.
  induction s as [|x s IH]; intros skip Hskip.
  - by destruct skip; [|simpl in Hskip; lia].
  - destruct skip as [|skip]; [|simpl in *; apply IH; lia].
    cbn [split_from string_drop].
    destruct (String.prefix (String a sep) (String x s)) eqn:Hprefix.
    + pose proof (prefix_length _ _ Hprefix) as Hlength.
      pose proof (prefix_drop _ _ Hprefix) as Hdrop.
      cbn [String.length Nat.pred string_drop] in *.
      pose proof (split_from_nonempty (String a sep) s (String.length sep)) as Hfields.
      specialize (IH (String.length sep) ltac:(lia)).
      destruct (split_from _ _ s) as [|field fields]; [done|].
      change (String.concat (String a sep) (EmptyString :: field :: fields))
        with (String a sep +:+ String.concat (String a sep) (field :: fields)).
      by rewrite IH.
    + pose proof (split_from_nonempty (String a sep) s 0) as Hfields.
      specialize (IH 0%nat ltac:(lia)).
      destruct (split_from _ 0 s) as [|field fields]; [done|].
      rewrite concat_cons, IH. done.
Qed.

Lemma split_two a sep s first second :
  split (String a sep) s = [first; second] -> s = first +:+ String a sep +:+ second.
Proof.
  intros Hsplit. pose proof (concat_split_from a sep s 0 ltac:(lia)) as Hconcat.
  unfold split in Hsplit. by rewrite Hsplit in Hconcat.
Qed.

Lemma prefix_cons a old x s :
  String.prefix (String a old) (String x s)
    = if Ascii.eqb a x then String.prefix old s else false.
Proof.
  cbn [String.prefix]. destruct (ascii_dec a x) as [->|Hne].
  - by rewrite Ascii.eqb_refl.
  - by apply Ascii.eqb_neq in Hne as ->.
Qed.

Lemma prefix_empty s : String.prefix EmptyString s = true.
Proof. by destruct s. Qed.

Lemma append_cons x s t : String x s +:+ t = String x (s +:+ t).
Proof. reflexivity. Qed.

(** No [" with"] begins in a text without one and ends in the [" with"]
    that follows it. *)
Lemma prefix_with_straddle x a b :
  contains " with" (String x a) = false ->
  String.prefix " with" (String x a +:+ " with" +:+ b) = false.
Proof.
  intros [Hprefix _]%contains_cons. revert Hprefix.
  rewrite append_cons, !prefix_cons. destruct (Ascii.eqb " " x); [|done].
  destruct a as [|x2 a]; [done|].
  rewrite append_cons, !prefix_cons. destruct (Ascii.eqb "w" x2); [|done].
  destruct a as [|x3 a]; [done|].
  rewrite append_cons, !prefix_cons. destruct (Ascii.eqb "i" x3); [|done].
  destruct a as [|x4 a]; [done|].
  rewrite append_cons, !prefix_cons. destruct (Ascii.eqb "t" x4); [|done].
  destruct a as [|x5 a]; [done|].
  rewrite append_cons, !prefix_cons. destruct (Ascii.eqb "h" x5); [|done].
  by rewrite prefix_empty.
Qed.

Lemma split_with_head b :
  split_from " with" 0 (" with" +:+ b) = EmptyString :: split_from " with" 0 b.
Proof.
  change (" with" +:+ b)
    with (String " " (String "w" (String "i" (String "t" (String "h" b))))).
  cbn [split_from]. by rewrite !prefix_cons, !Ascii.eqb_refl, prefix_empty.
Qed.

Lemma split_with_once a b :
  contains " with" a = false -> contains " with" b = false ->
  split " with" (a +:+ " with" +:+ b) = [a; b].
Proof.
  intros Ha Hb. unfold split. induction a as [|x a IH].
  - change (EmptyString +:+ " with" +:+ b) with (" with" +:+ b).
    rewrite split_with_head. fold (split " with" b). by rewrite (split_absent _ _ Hb).
  - pose proof (prefix_with_straddle x a b Ha) as Hprefix.
    apply contains_cons in Ha as [_ Ha].
    rewrite (append_cons x a (" with" +:+ b)) in *.
    cbn [split_from]. rewrite Hprefix. by rewrite IH.
Qed.

Lemma contains_with_middle a b : contains " with" (a +:+ " with" +:+ b) = true.
Proof.
  induction a as [|x a IH].
  - change (EmptyString +:+ " with" +:+ b)
      with (String " " (String "w" (String "i" (String "t" (String "h" b))))).
    cbn [contains]. by rewrite !prefix_cons, !Ascii.eqb_refl, prefix_empty.
  - rewrite (append_cons x a (" with" +:+ b)). cbn [contains].
    rewrite IH. apply orb_true_r.
Qed.

(* ===================================================================== *)
(** * The text normalizer and the name split *)
(* ===================================================================== *)

(** ** X4.  A string prepared for a file name holds no line break, no
    double quote and no asterisk. *)
Theorem prepare_str_filename_safe (v : value) (name : string) :
  prepare_str v true = Return name ->
  occurs (ascii_of_nat 10) name = false /\
  occurs (ascii_of_nat 34) name = false /\
  occurs "*" name = false.
Proof.
  unfold prepare_str. destruct v as [| | |s| |]; try discriminate.
  { by intros [= <-]. }
  intros Hname.
  assert (name = replace "*" EmptyString
                   (replace double_quote single_quote
                      (replace word_joiner EmptyString (replace newline " " s)))) as ->
    by congruence.
  unfold newline, double_quote, single_quote. repeat split.
  - do 3 (apply occurs_replace; [|done]). by apply occurs_replace_char.
  - apply occurs_replace; [|done]. by apply occurs_replace_char.
  - by apply occurs_replace_char.
Qed.

(** ** X5.  A string with nothing to normalize is returned as it is:
    [prepare_str] changes a string only where a line break, a word joiner
    or, for a file name, a double quote or an asterisk stands. *)
Theorem prepare_str_clean (s : string) :
  contains newline s = false -> contains word_joiner s = false ->
  prepare_str (PyStr s) false = Return s /\
  (contains double_quote s = false -> contains "*" s = false ->
   prepare_str (PyStr s) true = Return s).
Proof.
  intros Hnewline Hjoiner. unfold prepare_str.
  rewrite (replace_absent newline), (replace_absent word_joiner) by done.
  split; [done|]. intros Hquote Hstar.
  by rewrite (replace_absent double_quote), (replace_absent "*").
Qed.

Lemma occurs_string_of_uint d : occurs "." (NilEmpty.string_of_uint d) = false.
Proof. induction d; simpl; done. Qed.

Lemma occurs_str_int z : occurs "." (str_int z) = false.
Proof.
  unfold str_int, NilZero.string_of_int, NilZero.string_of_uint.
  destruct (Z.to_int z) as [d|d]; destruct d; simpl; try done;
    apply occurs_string_of_uint.
Qed.

(** ** X6.  A whole-number amount is rendered by the default conversion:
    the fraction glyphs never touch the text of an int. *)
Theorem amount_str_int `{Env} (z : Z) : amount_str (PyNum (Int z)) = str_int z.
Proof.
  unfold amount_str. change (str (PyNum (Int z))) with (str_int z).
  pose proof (occurs_str_int z) as Hdot.
  rewrite (replace_absent "0.25"), (replace_absent "0.5"), (replace_absent "0.75");
    try done; by apply (contains_occurs ".").
Qed.

(** ** X7.  A name with [" with"] once -- a text without it, [" with"], a
    text without it -- is split there: the first text is the name, ["With"]
    and the second text the headline. *)
Theorem split_name_once (recipe : dict) (first rest : string) :
  getattr recipe "name" = PyStr (first +:+ " with" +:+ rest) ->
  contains " with" first = false -> contains " with" rest = false ->
  split_name recipe =
    Return (setattr (setattr recipe "name" (PyStr first)) "headline"
              (PyStr ("With" +:+ rest))).
Proof.
  intros Hname Hfirst Hrest. unfold split_name. rewrite Hname.
  cbn [str_in bind_outcome]. rewrite contains_with_middle.
  by rewrite split_with_once.
Qed.

(** ** X8.  Whenever a name with [" with"] is split, nothing of it is
    lost: the new name, [" with"] and the headline without its ["With"]
    spell the old name. *)
Theorem split_name_round_trip (recipe recipe' : dict) (name : string) :
  getattr recipe "name" = PyStr name -> contains " with" name = true ->
  split_name recipe = Return recipe' ->
  exists first rest,
    name = first +:+ " with" +:+ rest /\
    getattr recipe' "name" = PyStr first /\
    getattr recipe' "headline" = PyStr ("With" +:+ rest).
Proof.
  intros Hname Hwith. unfold split_name. rewrite Hname.
  cbn [str_in bind_outcome]. rewrite Hwith.
  destruct (split " with" name) as [|first [|rest [|]]] eqn:Hsplit; try discriminate.
  intros [= <-]. exists first, rest. split; [by apply split_two|]. split.
  - rewrite getattr_setattr_other by done. apply getattr_setattr.
  - apply getattr_setattr.
Qed.

Lemma prepare_str_filename_safe_witness :
  occurs (ascii_of_nat 10) "5 'a' day" = false /\
  occurs (ascii_of_nat 34) "5 'a' day" = false /\
  occurs "*" "5 'a' day" = false.
Proof.
  apply (prepare_str_filename_safe
           (PyStr ("5 " +:+ double_quote +:+ "a" +:+ double_quote +:+ "*" +:+ newline +:+ "day"))).
  reflexivity.
Defined.

Lemma prepare_str_clean_witness :
  prepare_str (PyStr "Seared Chicken.pdf") false = Return "Seared Chicken.pdf" /\
  (contains double_quote "Seared Chicken.pdf" = false ->
   contains "*" "Seared Chicken.pdf" = false ->
   prepare_str (PyStr "Seared Chicken.pdf") true = Return "Seared Chicken.pdf").
Proof. apply (prepare_str_clean "Seared Chicken.pdf"); reflexivity. Defined.

Lemma split_name_once_witness :
  split_name Sample.chicken =
    Return (setattr (setattr Sample.chicken "name" (PyStr "Seared Chicken")) "headline"
              (PyStr "With Lemon Sauce")).
Proof. apply (split_name_once Sample.chicken "Seared Chicken" " Lemon Sauce"); reflexivity. Defined.

Lemma split_name_round_trip_witness :
  exists first rest,
    "Salad without Dressing" = first +:+ " with" +:+ rest /\
    getattr (setattr (setattr Sample.chicken "name" (PyStr "Salad")) "headline"
               (PyStr "Without Dressing")) "name" = PyStr first /\
    getattr (setattr (setattr Sample.chicken "name" (PyStr "Salad")) "headline"
               (PyStr "Without Dressing")) "headline" = PyStr ("With" +:+ rest).
Proof.
  apply (split_name_round_trip
           (setattr Sample.chicken "name" (PyStr "Salad without Dressing"))); reflexivity.
Defined.

(* ===================================================================== *)
(** * The image cache *)
(* ===================================================================== *)

Lemma files_kept_refl w : files_kept w w.
Proof. by intros p c. Qed.

Lemma files_kept_trans w1 w2 w3 : files_kept w1 w2 -> files_kept w2 w3 -> files_kept w1 w3.
Proof. intros H12 H23 p c Hp. auto. Qed.

Section Cache.
Context `{Env}.

Lemma isfile_run path w :
  isfile path w = (Return (match fs w !! path with Some (File _) => true | _ => false end), w).
Proof. reflexivity. Qed.

Lemma http_get_Return url w resp w' :
  http_get url w = (Return resp, w') ->
  w' = World (fs w) (trace w ++ [HttpGet url]) /\ server (trace w) url = resp.
Proof. unfold http_get. destruct (server _ _); intros [= <- <-]; done. Qed.

Lemma save_image_cached self url name ext height w c :
  fs w !! cache_path self name ext = Some (File c) ->
  save_image self url name ext height w = (Return (cache_path self name ext), w).
Proof.
  intros Hcached. unfold save_image. fold (cache_path self name ext).
  by rewrite (bind_run _ _ _ _ _ (isfile_run _ _)), Hcached.
Qed.

(** ** X9.  An image that was obtained is cached: after [save_image] has
    returned, asking again for the same key and extension returns the same
    path and leaves the world as it is, whatever the URL and the height
    asked -- no second request. *)
Theorem save_image_then_cached self url name ext height w path w' :
  save_image self url name ext height w = (Return path, w') ->
  forall url' height', save_image self url' name ext height' w' = (Return path, w').
Proof.
  intros Hrun url' height'.
  assert (path = cache_path self name ext) as -> by (eapply save_image_Return, Hrun).
  revert Hrun. unfold save_image at 1. fold (cache_path self name ext).
  rewrite (bind_run _ _ _ _ _ (isfile_run _ _)).
  destruct (fs w !! cache_path self name ext) as [[|c]|] eqn:Hpath.
  - destruct url; try discriminate.
    intros (resp & w2 & [-> _]%http_get_Return & Hrun)%bind_Return.
    destruct resp as [status_code body|]; [|discriminate].
    destruct (decide (status_code = 200)) as [->|Hne].
    + apply bind_Return in Hrun as ([] & w3 & Hwrite & _).
      unfold write_file in Hwrite. cbn [fs] in Hwrite. by rewrite Hpath in Hwrite.
    + destruct status_code as [|[]|]; try discriminate;
        repeat (destruct p; try discriminate); contradiction.
  - intros [_ ->]%ret_Return. by eapply save_image_cached.
  - destruct url; try discriminate.
    intros (resp & w2 & [-> _]%http_get_Return & Hrun)%bind_Return.
    destruct resp as [status_code body|]; [|discriminate].
    destruct (decide (status_code = 200)) as [->|Hne].
    + apply bind_Return in Hrun as ([] & w3 & Hwrite & [_ ->]%ret_Return).
      unfold write_file in Hwrite. cbn [fs] in Hwrite. rewrite Hpath in Hwrite.
      injection Hwrite as <-. eapply save_image_cached. cbn [fs]. apply lookup_insert_eq.
    + destruct status_code as [|[]|]; try discriminate;
        repeat (destruct p; try discriminate); contradiction.
Qed.

(** ** X10.  A fetch that the server does not answer with 200 raises
    [Exception] with the status code, after the one request, and leaves no
    file: the file system is as it was. *)
Theorem save_image_failed_fetch self url name ext height w status_code body :
  (forall c, fs w !! cache_path self name ext <> Some (File c)) ->
  server (trace w) (IMAGE_URL ext (str_int height) +:+ url) = Response status_code body ->
  status_code <> 200 ->
  save_image self (PyStr url) name ext height w =
    (Raise (Exception status_code),
     World (fs w) (trace w ++ [HttpGet (IMAGE_URL ext (str_int height) +:+ url)])).
Proof.
  intros Hfresh Hserver Hstatus. unfold save_image. fold (cache_path self name ext).
  rewrite (bind_run _ _ _ _ _ (isfile_run _ _)).
  assert (match fs w !! cache_path self name ext with
          | Some (File _) => true
          | _ => false
          end = false) as ->.
  { destruct (fs w !! cache_path self name ext) as [[|c]|] eqn:Hpath; try done.
    by destruct (Hfresh c). }
  unfold bind at 1, http_get. rewrite Hserver.
  destruct status_code as [|[]|]; try reflexivity;
    repeat (destruct p; try reflexivity); contradiction.
Qed.

(** The image cache never touches a file that is there. *)
Lemma files_kept_insert w path node t :
  (forall c, fs w !! path <> Some (File c)) ->
  files_kept w (World (<[path := node]> (fs w)) t).
Proof.
  intros Hfresh q c Hq. cbn [fs]. rewrite lookup_insert_ne; [done|].
  intros <-. by destruct (Hfresh c).
Qed.

Lemma files_kept_save_image self url name ext height :
  preserves files_kept (save_image self url name ext height).
Proof.
  intros w o w'. unfold save_image. fold (cache_path self name ext).
  rewrite (bind_run _ _ _ _ _ (isfile_run _ _)).
  destruct (fs w !! cache_path self name ext) as [[|c]|] eqn:Hpath;
    [|intros [= <- <-]; apply files_kept_refl|];
    (destruct url; try (intros [= <- <-]; apply files_kept_refl);
     unfold bind, http_get, write_file, raise, ret;
     destruct (server (trace w) _) as [status_code body|];
       [|intros [= <- <-]; by intros q c'];
     cbn [fs]; rewrite ?Hpath;
     destruct status_code as [|[]|]; try (intros [= <- <-]; by intros q c');
       repeat (destruct p; try (intros [= <- <-]; by intros q c'))).
  all: cbn [fs trace]; rewrite Hpath; intros [= <- <-].
  - by intros q c'.
  - apply files_kept_insert. intros c. by rewrite Hpath.
Qed.

End Cache.

(* ===================================================================== *)
(** * What the composition of a document keeps *)
(* ===================================================================== *)

(** As [Preserves], for relations that hold along the image cache as a
    whole and along the events that are no request. *)
Section Invariants.
Context `{Env}.
Variable R : world -> world -> Prop.
Hypothesis R_refl : forall w, R w w.
Hypothesis R_trans : forall w1 w2 w3, R w1 w2 -> R w2 w3 -> R w1 w3.
Hypothesis R_draw : forall op, preserves R (emit (Draw op)).
Hypothesis R_print : forall line, preserves R (emit (Print line)).
Hypothesis R_makedirs : forall directory, preserves R (makedirs directory).
Hypothesis R_save_image : forall self url name ext height,
  preserves R (save_image self url name ext height).

#[local] Hint Resolve R_draw R_print R_makedirs R_save_image : preserves.
#[local] Hint Extern 1 (preserves _ (ret _)) => apply preserves_ret; assumption : preserves.
#[local] Hint Extern 1 (preserves _ (raise _)) => apply preserves_raise; assumption : preserves.
#[local] Hint Extern 1 (preserves _ (lift _)) => apply preserves_lift; assumption : preserves.

Ltac invariant_tac :=
  repeat first
    [ progress eauto with preserves
    | apply preserves_for_each; [assumption .. | intros ? ? | ]
    | apply preserves_bind; [assumption .. | | intros ?]
    | match goal with
      | |- preserves _ (if ?b then _ else _) => destruct b
      | |- preserves _ (let '(_, _) := ?x in _) => destruct x
      | |- preserves _ (match ?x with _ => _ end) => destruct x
      end ].

Lemma invariant_call pdf op : preserves R (call pdf op).
Proof. unfold call. invariant_tac. Qed.

Lemma invariant_print line : preserves R (print line).
Proof. apply R_print. Qed.

#[local] Hint Resolve invariant_call invariant_print : preserves.

Lemma invariant_write pdf size x y text : preserves R (write pdf size x y text).
Proof. unfold write. invariant_tac. Qed.

Lemma invariant_multi_cell pdf size x y width height text :
  preserves R (multi_cell pdf size x y width height text).
Proof. unfold multi_cell. invariant_tac. Qed.

Lemma invariant_get_or_make_dir base_path dir_name :
  preserves R (get_or_make_dir base_path dir_name).
Proof. unfold get_or_make_dir. invariant_tac. Qed.

#[local] Hint Resolve invariant_write invariant_multi_cell invariant_get_or_make_dir
  : preserves.

Lemma invariant_output_path self recipe : preserves R (output_path self recipe).
Proof. unfold output_path. invariant_tac. Qed.

Lemma invariant_ingredient_body self recipe item vars :
  preserves R (ingredient_body self recipe item vars).
Proof. unfold ingredient_body. destruct item, vars. invariant_tac. Qed.

Lemma invariant_step_body self recipe steps_y item pdf :
  preserves R (step_body self recipe steps_y item pdf).
Proof. unfold step_body. destruct item. invariant_tac. Qed.

#[local] Hint Resolve invariant_output_path invariant_ingredient_body
  invariant_step_body : preserves.

Lemma invariant_compose self recipe : preserves R (compose self recipe).
Proof. unfold compose. invariant_tac. Qed.

End Invariants.

Lemma files_kept_emit e : preserves files_kept (emit e).
Proof. intros w o w' [= <- <-]. by intros p c. Qed.

Lemma files_kept_makedirs directory : preserves files_kept (makedirs directory).
Proof.
  intros w o w'. unfold makedirs.
  destruct (fs w !! directory) as [[|c]|] eqn:Hdir; intros [= <- <-];
    try apply files_kept_refl.
  apply files_kept_insert. intros c. by rewrite Hdir.
Qed.

Lemma extends_by_refl P w : extends_by P w w.
Proof. exists []. by rewrite app_nil_r. Qed.

Lemma extends_by_trans P w1 w2 w3 :
  extends_by P w1 w2 -> extends_by P w2 w3 -> extends_by P w1 w3.
Proof.
  intros (events1 & H1 & HP1) (events2 & H2 & HP2). exists (events1 ++ events2).
  split; [by rewrite H2, H1, app_assoc | by apply Forall_app].
Qed.

Lemma extends_by_emit (P : event -> Prop) e : P e -> preserves (extends_by P) (emit e).
Proof. intros HP w o w' [= <- <-]. exists [e]. split; [done | by constructor]. Qed.

Lemma extends_by_makedirs P directory : preserves (extends_by P) (makedirs directory).
Proof.
  intros w o w'. unfold makedirs.
  destruct (fs w !! directory) as [[|c]|]; intros [= <- <-];
    (exists []; cbn [trace]; by rewrite app_nil_r).
Qed.

Lemma extends_by_write_file P path c : preserves (extends_by P) (write_file path c).
Proof.
  intros w o w'. unfold write_file.
  destruct (fs w !! path) as [[|c']|]; intros [= <- <-];
    (exists []; cbn [trace]; by rewrite app_nil_r).
Qed.

Lemma prefix_append p s : String.prefix p (p +:+ s) = true.
Proof.
  induction p as [|a p IH]; [apply prefix_empty|].
  by rewrite append_cons, prefix_cons, Ascii.eqb_refl.
Qed.

Lemma image_host_url ext height url :
  String.prefix image_host (IMAGE_URL ext height +:+ url) = true.
Proof.
  assert (IMAGE_URL ext height +:+ url =
          image_host +:+ ("f_" +:+ ext +:+ ",q_auto,h_" +:+ height +:+ "/v1/hellofresh_s3")
            +:+ url) as ->.
  { unfold IMAGE_URL, image_host. reflexivity. }
  apply prefix_append.
Qed.

Section Frame.
Context `{Env}.

Lemma extends_by_save_image self url name ext height :
  preserves (extends_by local_or_image_request) (save_image self url name ext height).
Proof.
  intros w o w'. unfold save_image. fold (cache_path self name ext).
  rewrite (bind_run _ _ _ _ _ (isfile_run _ _)).
  destruct (match fs w !! cache_path self name ext with Some (File _) => true | _ => false end).
  { intros [= <- <-]. apply extends_by_refl. }
  destruct url as [| | |u| |]; try (intros [= <- <-]; apply extends_by_refl).
  assert (extends_by local_or_image_request w
            (World (fs w) (trace w ++ [HttpGet (IMAGE_URL ext (str_int height) +:+ u)])))
    as Hget.
  { exists [HttpGet (IMAGE_URL ext (str_int height) +:+ u)]. split; [done|].
    constructor; [|done]. apply image_host_url. }
  unfold bind at 1, http_get.
  destruct (server (trace w) _) as [status_code body|]; [|by intros [= <- <-]].
  destruct (decide (status_code = 200)) as [->|Hne].
  - intros Hrun. eapply extends_by_trans; [exact Hget|]. revert Hrun.
    unfold bind, write_file, ret.
    destruct (fs _ !! _)  as [[|c']|]; intros [= <- <-];
      (exists []; cbn [trace]; by rewrite app_nil_r).
  - destruct status_code as [|[]|]; try (by intros [= <- <-]);
      repeat (destruct p; try (by intros [= <- <-])); contradiction.
Qed.

(** Processing a recipe keeps the files: an image is fetched only where no
    file stands at its cache path, a document written only where nothing
    stands at its path. *)
Lemma files_kept_process_recipe self recipe :
  preserves files_kept (process_recipe self recipe).
Proof.
  intros w o w'.
  pose proof (invariant_output_path files_kept files_kept_refl files_kept_trans
                files_kept_makedirs) as Hpath.
  pose proof (invariant_compose files_kept files_kept_refl files_kept_trans
                (fun op => files_kept_emit (Draw op))
                (fun line => files_kept_emit (Print line))
                files_kept_save_image) as Hcompose.
  unfold process_recipe. destruct (_ || _).
  { intros [= <- <-]. apply files_kept_refl. }
  unfold bind at 1, lift. destruct (split_name recipe) as [recipe'|e].
  2: { intros [= <- <-]. apply files_kept_refl. }
  unfold bind at 1. destruct (output_path self recipe' w) as [[path|e] w1] eqn:Hrun1.
  2: { intros [= <- <-]. eapply Hpath, Hrun1. }
  apply Hpath in Hrun1. unfold bind at 1, exists_.
  destruct (fs w1 !! path) as [node|] eqn:Hfresh.
  { by intros [= <- <-]. }
  unfold bind at 1. destruct (compose self recipe' w1) as [[pdf|e] w2] eqn:Hrun2.
  2: { intros [= <- <-]. eapply files_kept_trans; [done|]. eapply Hcompose, Hrun2. }
  apply Hcompose in Hrun2.
  assert (files_kept w w2) as H02 by (by eapply files_kept_trans).
  unfold bind, write_file, print, emit.
  destruct (fs w2 !! path) as [[|c]|]; intros [= <- <-]; try done.
  - intros q c' Hq. cbn [fs]. rewrite lookup_insert_ne; [by apply H02|].
    intros <-. apply Hrun1 in Hq. by rewrite Hfresh in Hq.
  - intros q c' Hq. cbn [fs]. rewrite lookup_insert_ne; [by apply H02|].
    intros <-. apply Hrun1 in Hq. by rewrite Hfresh in Hq.
Qed.

Lemma extends_by_process_recipe self recipe :
  preserves (extends_by local_or_image_request) (process_recipe self recipe).
Proof.
  pose proof (extends_by_refl local_or_image_request) as Hrefl.
  pose proof (extends_by_trans local_or_image_request) as Htrans.
  assert (forall e, (forall url, e <> HttpGet url) ->
                    preserves (extends_by local_or_image_request) (emit e)) as Hemit.
  { intros e He. apply extends_by_emit. destruct e as [url| |]; [|done..].
    by destruct (He url). }
  pose proof (invariant_output_path _ Hrefl Htrans
                (extends_by_makedirs local_or_image_request)) as Hpath.
  pose proof (invariant_compose _ Hrefl Htrans
                (fun op => Hemit (Draw op) ltac:(done))
                (fun line => Hemit (Print line) ltac:(done))
                extends_by_save_image) as Hcompose.
  unfold process_recipe. destruct (_ || _); [by apply preserves_ret|].
  apply preserves_bind; [done.. | by apply preserves_lift | intros recipe'].
  apply preserves_bind; [done.. | intros path].
  apply preserves_bind; [done.. | by apply preserves_exists | intros [|]];
    [by apply preserves_ret|].
  apply preserves_bind; [done.. | intros pdf].
  apply preserves_bind; [done.. | apply extends_by_write_file | intros _].
  by apply Hemit.
Qed.

(** ** X11.  Processing a recipe never changes or removes a file that is
    there: whatever the outcome, every file of the file system before is in
    it after, with the content it had. *)
Theorem process_recipe_keeps_files self recipe w o w' :
  process_recipe self recipe w = (o, w') -> files_kept w w'.
Proof. apply files_kept_process_recipe. Qed.

(** ** X12.  Processing a recipe only adds to the trace, and every request
    it makes is a GET under the image host: it contacts no other address. *)
Theorem process_recipe_requests_images_only self recipe w o w' :
  process_recipe self recipe w = (o, w') -> extends_by local_or_image_request w w'.
Proof. apply extends_by_process_recipe. Qed.

(** ** X21.  A batch, its tasks run one after the other, keeps every file
    that was there, only adds to the trace, and requests nothing but images,
    whether it returns or raises. *)
Theorem process_all_recipes_frame self recipes w o w' :
  process_all_recipes self recipes w = (o, w') ->
  files_kept w w' /\ extends_by local_or_image_request w w'.
Proof.
  intros Hrun. split; revert Hrun;
    apply preserves_process_all_recipes;
    eauto using files_kept_refl, files_kept_trans, files_kept_process_recipe,
      extends_by_refl, extends_by_trans, extends_by_process_recipe.
Qed.

End Frame.

(* ===================================================================== *)
(** * Rendering, and what stops it *)
(* ===================================================================== *)

Lemma fails_within_bind {A B} (R : world -> world -> Prop) (m : M A) (k : A -> M B) :
  (forall w1 w2 w3, R w1 w2 -> R w2 w3 -> R w1 w3) ->
  preserves R m -> (forall a, fails_within R (k a)) -> fails_within R (bind m k).
Proof.
  intros Htrans Hm Hk w. unfold bind. destruct (m w) as [[a|e] w1] eqn:Hrun.
  - destruct (Hk a w1) as (e & w' & -> & HR). exists e, w'. split; [done|].
    eapply Htrans; [eapply Hm, Hrun | done].
  - exists e, w1. split; [done|]. eapply Hm, Hrun.
Qed.

Lemma quiet_refl w : quiet w w.
Proof. split; [done | apply extends_by_refl]. Qed.

Lemma quiet_trans w1 w2 w3 : quiet w1 w2 -> quiet w2 w3 -> quiet w1 w3.
Proof.
  intros [Hfs1 H1] [Hfs2 H2]. split; [congruence | by eapply extends_by_trans].
Qed.

Lemma quiet_emit e : no_request e -> preserves quiet (emit e).
Proof.
  intros He w o w' Hrun. split; [by injection Hrun as <- <- |].
  by eapply extends_by_emit.
Qed.

Section Rendering.
Context `{Env}.

(** ** X13.  A recipe that is processed to the end, where it is
    well-formed and nothing stands at its path, has its document there: the
    file at the path holds the document that [compose] returned, and the
    last line printed is ["Output "] and the name. *)
Theorem process_recipe_saves_document self recipe recipe' path w w1 w' :
  negb (truthy (getattr recipe "steps")) || negb (truthy (getattr recipe "ingredients"))
    = false ->
  split_name recipe = Return recipe' ->
  output_path self recipe' w = (Return path, w1) ->
  fs w1 !! path = None ->
  process_recipe self recipe w = (Return tt, w') ->
  exists pdf w2,
    compose self recipe' w1 = (Return pdf, w2) /\
    fs w' = <[path := File (Document pdf)]> (fs w2) /\
    trace w' = trace w2 ++ [Print ("Output " +:+ str (getattr recipe' "name"))].
Proof.
  intros Hwell Hsplit Hpath Hfresh. unfold process_recipe. rewrite Hwell, Hsplit.
  unfold lift at 1, bind at 1. rewrite (bind_run _ _ _ _ _ Hpath).
  unfold exists_ at 1, bind at 1. rewrite Hfresh.
  intros (pdf & w2 & Hcompose & Hrun)%bind_Return.
  apply bind_Return in Hrun as ([] & w3 & Hwrite & [= <-]).
  exists pdf, w2. split; [done|]. unfold write_file in Hwrite.
  destruct (fs w2 !! path) as [[|c]|]; try discriminate; by injection Hwrite as <-.
Qed.

(** ** X14.  A recipe with no ['description'] key is never composed:
    [compose] raises, having written no file and made no request (a null
    description is fine; the key must be there). *)
Theorem compose_without_description self recipe w :
  dict_get recipe "description" = None ->
  exists e w', compose self recipe w = (Raise e, w') /\ quiet w w'.
Proof.
  intros Hmissing. revert w. change (fails_within quiet (compose self recipe)).
  pose proof (invariant_write quiet quiet_refl quiet_trans
                (fun op => quiet_emit (Draw op) I)) as Hwrite.
  pose proof (invariant_call quiet quiet_refl quiet_trans
                (fun op => quiet_emit (Draw op) I)) as Hcall.
  unfold compose. rewrite Hmissing.
  repeat first
    [ solve [intros w; exists KeyError, w; split; [reflexivity | apply quiet_refl]]
    | apply fails_within_bind;
        [apply quiet_trans
        |first [ apply Hwrite | apply Hcall | by apply quiet_emit
               | apply preserves_lift, quiet_refl ]
        |intros ?] ].
Qed.

End Rendering.

(* ===================================================================== *)
(** * Bounds and geometry *)
(* ===================================================================== *)

Lemma index_list_head {A} (x : A) (l : list A) : index_list (x :: l) 0 = Return x.
Proof.
  unfold index_list. cbn [length].
  replace (0 <? Z.of_nat (S (length l))) with true by (symmetry; apply Z.ltb_lt; lia).
  reflexivity.
Qed.

Lemma index_list_out_of_range {A} (l : list A) (i : Z) :
  Z.of_nat (length l) <= i -> index_list l i = Raise IndexError.
Proof.
  intros Hi. unfold index_list.
  replace (i <? 0) with false by (symmetry; apply Z.ltb_ge; lia).
  replace (i <? Z.of_nat (length l)) with false by (symmetry; apply Z.ltb_ge; lia).
  by rewrite andb_false_r.
Qed.

(** ** X15.  An ingredient with no amount entry at its index -- the list
    [yields[0]['ingredients']] is too short -- makes the formatter raise
    [IndexError]. *)
Theorem get_ingredient_details_out_of_range `{Env} recipe yields0 more amounts idx :
  getattr recipe "yields" = PyList (PyDict yields0 :: more) ->
  dict_get yields0 "ingredients" = Some (PyList amounts) ->
  Z.of_nat (length amounts) <= idx ->
  get_ingredient_details recipe idx = Raise IndexError.
Proof.
  intros Hyields Hamounts Hidx. unfold get_ingredient_details.
  rewrite Hyields. unfold subscript_int at 1. rewrite index_list_head.
  cbn [bind_outcome subscript_str]. rewrite Hamounts.
  cbn [bind_outcome subscript_int]. by rewrite index_list_out_of_range.
Qed.

(** ** X16.  Two slots of the grid never coincide: for different counts
    of ingredients drawn so far, the image is placed at different [(x, y)]. *)
Theorem grid_slots_distinct (num_ingr num_ingr' : Z) :
  num_ingr <> num_ingr' ->
  (10 + 46 * (num_ingr mod 4), 62 + 13 * floor_div4 num_ingr)
    <> (10 + 46 * (num_ingr' mod 4), 62 + 13 * floor_div4 num_ingr').
Proof.
  unfold floor_div4. intros Hne [= Hx Hy].
  apply Hne. rewrite (Z.div_mod num_ingr 4), (Z.div_mod num_ingr' 4) by done. lia.
Qed.

(** ** X17.  The steps start below the grid: with [n] ingredients in the
    grid, every step stands at least 10 below the second line of every
    slot. *)
Theorem steps_below_grid (n k j : Z) :
  0 <= k < n -> 0 <= j ->
  70 + 13 * floor_div4 k + 10 <= 67 + 13 * ceil_div4 n + j * 26.
Proof.
  intros Hk Hj. unfold floor_div4, ceil_div4.
  Z.to_euclidean_division_equations. lia.
Qed.

(* ===================================================================== *)
(** * These properties on the sample data *)
(* ===================================================================== *)

Lemma save_image_then_cached_witness :
  @save_image Sample.env_ok Sample.self PyNone "Chicken" "png" 0
    (snd (@save_image Sample.env_ok Sample.self (PyStr "/chicken.png") "Chicken" "png" 200
            Sample.empty_world))
    = (Return "tmp/Chicken.png",
       snd (@save_image Sample.env_ok Sample.self (PyStr "/chicken.png") "Chicken" "png" 200
              Sample.empty_world)).
Proof.
  apply (@save_image_then_cached Sample.env_ok Sample.self (PyStr "/chicken.png") "Chicken"
           "png" 200 Sample.empty_world "tmp/Chicken.png").
  vm_compute. reflexivity.
Defined.

Lemma save_image_failed_fetch_witness :
  @save_image Sample.env_404 Sample.self (PyStr "/rice.png") "Rice" "png" 200
    Sample.empty_world =
  (Raise (Exception 404),
   World ∅ [HttpGet (IMAGE_URL "png" "200" +:+ "/rice.png")]).
Proof.
  apply (@save_image_failed_fetch Sample.env_404 Sample.self "/rice.png" "Rice" "png" 200
           Sample.empty_world 404 "not found").
  - intros c. vm_compute. discriminate.
  - reflexivity.
  - discriminate.
Defined.

Lemma process_recipe_keeps_files_witness :
  files_kept Sample.after_batch
    (snd (@process_recipe Sample.env_404 Sample.self More.lemon_chicken Sample.after_batch)).
Proof.
  apply (@process_recipe_keeps_files Sample.env_404 Sample.self More.lemon_chicken
           Sample.after_batch
           (fst (@process_recipe Sample.env_404 Sample.self More.lemon_chicken
                   Sample.after_batch))).
  apply surjective_pairing.
Defined.

Lemma process_recipe_requests_images_only_witness :
  extends_by local_or_image_request Sample.empty_world
    (snd (@process_recipe Sample.env_ok Sample.self Sample.chicken Sample.empty_world)).
Proof.
  apply (@process_recipe_requests_images_only Sample.env_ok Sample.self Sample.chicken
           Sample.empty_world
           (fst (@process_recipe Sample.env_ok Sample.self Sample.chicken
                   Sample.empty_world))).
  apply surjective_pairing.
Defined.

Lemma process_recipe_saves_document_witness :
  exists pdf w2,
    @compose Sample.env_ok Sample.self More.chicken_split Sample.empty_world
      = (Return pdf, w2) /\
    fs (snd (@process_recipe Sample.env_ok Sample.self Sample.chicken Sample.empty_world))
      = <["recipes/Seared Chicken.pdf" := File (Document pdf)]> (fs w2) /\
    trace (snd (@process_recipe Sample.env_ok Sample.self Sample.chicken
                  Sample.empty_world))
      = trace w2 ++ [Print ("Output " +:+ @str Sample.env_ok (getattr More.chicken_split "name"))].
Proof.
  apply (@process_recipe_saves_document Sample.env_ok Sample.self Sample.chicken
           More.chicken_split "recipes/Seared Chicken.pdf" Sample.empty_world
           Sample.empty_world).
  - reflexivity.
  - reflexivity.
  - reflexivity.
  - reflexivity.
  - vm_compute. reflexivity.
Defined.

Lemma compose_without_description_witness :
  exists e w',
    @compose Sample.env_ok Sample.self More.no_description Sample.empty_world
      = (Raise e, w') /\ quiet Sample.empty_world w'.
Proof.
  apply (@compose_without_description Sample.env_ok Sample.self More.no_description
           Sample.empty_world).
  reflexivity.
Defined.

Lemma get_ingredient_details_out_of_range_witness :
  @get_ingredient_details Sample.env_ok More.two_ingredients_one_amount 1 = Raise IndexError.
Proof.
  eapply (@get_ingredient_details_out_of_range Sample.env_ok
            More.two_ingredients_one_amount).
  - reflexivity.
  - reflexivity.
  - vm_compute. discriminate.
Defined.

Lemma grid_slots_distinct_witness :
  (10 + 46 * (1 mod 4), 62 + 13 * floor_div4 1)
    <> (10 + 46 * (5 mod 4), 62 + 13 * floor_div4 5).
Proof. apply (grid_slots_distinct 1 5). discriminate. Defined.

Lemma steps_below_grid_witness :
  70 + 13 * floor_div4 5 + 10 <= 67 + 13 * ceil_div4 6 + 0 * 26.
Proof. apply (steps_below_grid 6 5 0); lia. Defined.

(* ===================================================================== *)
(** * Collecting the catalogue *)
(* ===================================================================== *)

Section Collecting.
Context `{Env} `{Catalog}.

Lemma collect_pages_serves catalog : serves catalog ->
  forall (n i : nat) all_recipes c,
    (1 <= n)%nat ->
    (250 * (i + n - 1) <= length catalog < 250 * (i + n))%nat ->
    all_recipes = take (250 * i) catalog ->
    collect_pages n (Z.of_nat i) all_recipes c =
      Some (Return catalog,
            Client (client_fs c)
              (requests c ++ page_requests (ACCESS_TOKEN c) (Z.of_nat i) n)
              (console c) (ACCESS_TOKEN c)).
Proof.
  intros Hserves. induction n as [|n IH]; intros i all_recipes c Hn Hbounds ->; [lia|].
  cbn [collect_pages]. unfold send, page_request at 1.
  rewrite Hserves by lia.
  replace (Z.to_nat (Z.of_nat i * 250)) with (250 * i)%nat by lia.
  cbn [negb Z.eqb Pos.eqb bind_outcome subscript_str dict_get String.eqb Ascii.eqb
       Bool.eqb iterate requests client_fs console ACCESS_TOKEN].
  rewrite length_take, length_drop.
  destruct n as [|n].
  - replace (Z.of_nat (250 `min` (length catalog - 250 * i)) <? 250) with true
      by (symmetry; apply Z.ltb_lt; lia).
    rewrite (take_ge (drop _ _)) by (rewrite length_drop; lia).
    by rewrite take_drop.
  - replace (Z.of_nat (250 `min` (length catalog - 250 * i)) <? 250) with false
      by (symmetry; apply Z.ltb_ge; lia).
    rewrite take_take_drop.
    replace (Z.of_nat i + 1) with (Z.of_nat (S i)) by lia.
    rewrite (IH (S i)); [|lia|lia|f_equal; lia].
    cbn [requests client_fs console ACCESS_TOKEN page_requests].
    rewrite <- app_assoc. cbn [app].
    by replace (Z.of_nat i + 1) with (Z.of_nat (S i)) by lia.
Qed.

Lemma login_fs c o c' : login c = (o, c') -> client_fs c' = client_fs c.
Proof.
  unfold login, send, say. cbn [requests client_fs console ACCESS_TOKEN].
  destruct (catalog_server _ _) as [status_code json|]; [|by intros [= <- <-]].
  destruct (negb _); by intros [= <- <-].
Qed.

Lemma collect_pages_fs fuel : forall i all_recipes c o c',
  collect_pages fuel i all_recipes c = Some (o, c') -> client_fs c' = client_fs c.
Proof.
  induction fuel as [|fuel IH]; intros i all_recipes c o c'; [done|].
  cbn [collect_pages]. unfold send.
  destruct (catalog_server _ _) as [status_code json|]; [|by intros [= <- <-]].
  destruct (negb _); [by intros [= <- <-]|].
  destruct (bind_outcome _ _) as [recipes|e]; [|by intros [= <- <-]].
  destruct (_ <? _); [by intros [= <- <-]|].
  intros Hrun. by apply IH in Hrun.
Qed.

(** ** X18.  From a server that serves a catalogue 250 items at most per
    call, [collect_recipes] gathers the whole catalogue, each record once
    and in order, in [length / 250 + 1] searches (page [i] asked with offset
    [250 i] and limit [250 (i + 1)]), and writes it to [recipes.json]; that
    many turns of its loop are enough. *)
Theorem collect_recipes_whole_catalog catalog c token c1 :
  serves catalog ->
  login c = (Return token, c1) ->
  client_fs c !! "recipes.json" <> Some Dir ->
  collect_recipes (length catalog / 250 + 1) c =
    Some (Return tt,
          Client (<["recipes.json" := File (Bytes (json_dumps catalog))]> (client_fs c))
            (requests c1 ++ page_requests token 0 (length catalog / 250 + 1))
            (console c1 ++ ["Collecting recipes..."]) token).
Proof.
  intros Hserves Hlogin Hfile. unfold collect_recipes. rewrite Hlogin.
  pose proof (login_fs _ _ _ Hlogin) as Hfs.
  rewrite (collect_pages_serves catalog Hserves _ 0).
  - unfold say. cbn [requests client_fs console ACCESS_TOKEN]. rewrite Hfs.
    by destruct (client_fs c !! "recipes.json") as [[|content]|].
  - lia.
  - pose proof (Nat.Div0.mul_div_le (length catalog) 250).
    pose proof (Nat.mul_succ_div_gt (length catalog) 250 ltac:(lia)). lia.
  - done.
Qed.

(** ** X19.  A collection that raises -- the login refused, a page
    refused, a body that is no catalogue -- leaves the files as they were:
    nothing of what was gathered is written. *)
Theorem collect_recipes_failed fuel c e c' :
  collect_recipes fuel c = Some (Raise e, c') -> client_fs c' = client_fs c.
Proof.
  unfold collect_recipes. destruct (login c) as [[token|e'] c1] eqn:Hlogin.
  - apply login_fs in Hlogin. unfold say.
    destruct (collect_pages _ _ _ _) as [[[all_recipes|e'] c2]|] eqn:Hpages; [| |done].
    + apply collect_pages_fs in Hpages. cbn [client_fs] in Hpages.
      destruct (client_fs c2 !! "recipes.json") as [[|content]|]; intros [= <- <-] || intros [=].
      congruence.
    + apply collect_pages_fs in Hpages. cbn [client_fs] in Hpages.
      intros [= <- <-]. congruence.
  - apply login_fs in Hlogin. by intros [= <- <-].
Qed.

End Collecting.

Lemma collect_recipes_whole_catalog_witness :
  exists c',
    @collect_recipes Sample.env_ok More.catalog_ok 2 More.new_client = Some (Return tt, c') /\
    client_fs c' !! "recipes.json" = Some (File (Bytes "251")) /\
    length (requests c') = 3%nat.
Proof.
  eexists. split.
  - apply (@collect_recipes_whole_catalog Sample.env_ok More.catalog_ok More.catalog
             More.new_client (PyStr "t0")
             (Client ∅ [Post LOGIN_LINK [("username", USERNAME); ("password", PASSWORD)]]
                ["Logging in..."] PyNone)).
    + intros log headers offset limit Hoffset. reflexivity.
    + reflexivity.
    + vm_compute. discriminate.
  - split; reflexivity.
Defined.

Lemma collect_recipes_failed_witness :
  client_fs (Client ∅ [Post LOGIN_LINK [("username", USERNAME); ("password", PASSWORD)]]
               ["Logging in..."] PyNone) = client_fs More.new_client.
Proof.
  apply (@collect_recipes_failed Sample.env_ok More.catalog_403 1 More.new_client
           (Exception 403)).
  reflexivity.
Defined.

Lemma process_all_recipes_frame_witness :
  fst More.mixed_batch = Raise ValueError /\
  is_Some (fs (snd More.mixed_batch) !! "recipes/Lemon Chicken.pdf") /\
  files_kept Sample.made_world (snd More.mixed_batch) /\
  extends_by local_or_image_request Sample.made_world (snd More.mixed_batch).
Proof.
  split; [vm_compute; reflexivity|]. split; [vm_compute; by eexists|].
  apply (@process_all_recipes_frame Sample.env_ok Sample.self
           [Sample.twice_with; More.lemon_chicken] Sample.made_world
           (fst More.mixed_batch)).
  apply surjective_pairing.
Defined.
